(** * Admin-chat moderation workflow of tg-spam (app/events/admin.go)

    A shallow embedding of the admin helper: the callback payload codec
    ([parseCallbackData], the button payloads built by [sendWithUnbanMarkup]
    and [callbackAskBanConfirmation]), the text extractor ([getCleanMessage]),
    and the handlers ([MsgHandler], [InlineCallbackHandler] and the four
    callbacks, [deleteAndBan]).

    Go strings are byte sequences, so [string] (a list of 8-bit [ascii]) is the
    carrier; [len] is [String.length].  Go integers are [Z] with their range
    written out where the code depends on it ([strconv.ParseInt]). *)

From Stdlib Require Import ZArith List String Ascii Bool Lia.
Import ListNotations.
Open Scope string_scope.
Open Scope Z_scope.

Set Implicit Arguments.
Set Warnings "-register-all".

(** ** Go runtime and standard-library pieces used by admin.go *)

Module GoStrings.

(** One-byte separator version of [strings.Split]: the result always has one
    more element than there are separators, so it is never empty. *)
Fixpoint Split (sep : ascii) (s : string) : list string :=
  match s with
  | EmptyString => [EmptyString]
  | String c rest =>
      if Ascii.eqb c sep then EmptyString :: Split sep rest
      else match Split sep rest with
           | hd :: tl => String c hd :: tl
           | [] => [String c EmptyString]
           end
  end.

(** [strings.Join] with a one-byte separator. *)
Fixpoint Join (sep : ascii) (l : list string) : string :=
  match l with
  | [] => EmptyString
  | [x] => x
  | x :: tl => x ++ String sep (Join sep tl)
  end.

(** [strings.HasPrefix s p]. *)
Fixpoint HasPrefix (s p : string) {struct p} : bool :=
  match p, s with
  | EmptyString, _ => true
  | String _ _, EmptyString => false
  | String b p', String c s' => Ascii.eqb c b && HasPrefix s' p'
  end.

(** Go's [len] on a string, as a (non-negative) integer. *)
Definition len (s : string) : Z := Z.of_nat (String.length s).

(** [s[1:]] for a string of length at least one (callers establish it). *)
Definition tail1 (s : string) : string :=
  match s with
  | EmptyString => EmptyString
  | String _ rest => rest
  end.

(** [s[:1]] for a non-empty string. *)
Definition head1 (s : string) : string :=
  match s with
  | EmptyString => EmptyString
  | String c _ => String c EmptyString
  end.

Definition newline : ascii := Ascii.ascii_of_nat 10.
Definition colon : ascii := ":"%char.

(** [strings.Count(s, sep)] for a one-byte separator. *)
Fixpoint Count (sep : ascii) (s : string) : nat :=
  match s with
  | EmptyString => O
  | String x rest => if Ascii.eqb x sep then S (Count sep rest) else Count sep rest
  end.

Fixpoint all_bytes (p : ascii -> bool) (s : string) : bool :=
  match s with
  | EmptyString => true
  | String x rest => p x && all_bytes p rest
  end.

End GoStrings.

Module Strconv.

Definition is_digit (c : ascii) : bool :=
  let n := Z.of_nat (nat_of_ascii c) in (48 <=? n) && (n <=? 57).

Definition digit_val (c : ascii) : Z := Z.of_nat (nat_of_ascii c) - 48.

Definition digit_char (d : Z) : ascii := ascii_of_nat (Z.to_nat (d + 48)).

(** Decimal digits of a non-negative number, most significant first; the
    fuel bounds the number of digits by the number of bits. *)
Fixpoint digits_fuel (fuel : nat) (n : Z) : string :=
  match fuel with
  | O => String (digit_char (n mod 10)) EmptyString
  | S f =>
      if n <? 10 then String (digit_char n) EmptyString
      else digits_fuel f (n / 10) ++ String (digit_char (n mod 10)) EmptyString
  end.

Definition digits (n : Z) : string := digits_fuel (Z.to_nat (Z.log2 n)) n.

(** The [%d] verb of [fmt.Sprintf]. *)
Definition FormatInt (n : Z) : string :=
  if n <? 0 then String "-"%char (digits (- n)) else digits n.

(** Value of a run of decimal digits, [None] on any other byte. *)
Fixpoint parse_digits (acc : Z) (s : string) : option Z :=
  match s with
  | EmptyString => Some acc
  | String c rest =>
      if is_digit c then parse_digits (10 * acc + digit_val c) rest else None
  end.

(** [strconv.ParseUint(s, 10, 64)] without the range check: the empty string
    is a syntax error. *)
Definition parse_unsigned (s : string) : option Z :=
  match s with
  | EmptyString => None
  | _ => parse_digits 0 s
  end.

(** [strconv.ParseInt(s, 10, bits)]: optional sign, at least one digit, and
    the value within the signed range of [bits] bits.  [None] stands for the
    [*strconv.NumError] (syntax or range). *)
Definition ParseInt (bits : Z) (s : string) : option Z :=
  let cutoff := 2 ^ (bits - 1) in
  match s with
  | EmptyString => None
  | String c rest =>
      if Ascii.eqb c "+"%char then
        match parse_unsigned rest with
        | Some un => if un <? cutoff then Some un else None
        | None => None
        end
      else if Ascii.eqb c "-"%char then
        match parse_unsigned rest with
        | Some un => if un <=? cutoff then Some (- un) else None
        | None => None
        end
      else
        match parse_unsigned s with
        | Some un => if un <? cutoff then Some un else None
        | None => None
        end
  end.

(** Size of Go's [int] on the 64-bit targets the bot is built for. *)
Definition intSize : Z := 64.

(** [strconv.Atoi]. *)
Definition Atoi (s : string) : option Z := ParseInt intSize s.

End Strconv.

(** ** Errors

    Go [error] values are kept structured: one constructor per [fmt.Errorf]
    site family, the message prefix as a string, the wrapped cause ([%w]) as a
    sub-term.  The ids and texts a message interpolates besides its cause are
    not kept: the claims are about which error comes back and what it wraps.
    [nil] is [None] of [option error]. *)

Inductive error : Type :=
| ErrExternal (msg : string)                 (* returned by a collaborator *)
| ErrNum (func num : string)                 (* *strconv.NumError *)
| ErrMsg (msg : string) (arg : string)       (* fmt.Errorf without %w *)
| ErrNew (text : string)                     (* errors.New *)
| ErrSuperUser (userName : string) (userID : Z)
| ErrWrap (msg : string) (cause : error)     (* fmt.Errorf("...: %w", err) *)
| ErrMulti (errs : list error).              (* *multierror.Error *)

(** A Go call either returns or panics (slice bounds out of range). *)
Inductive outcome (A : Type) : Type :=
| Returned (a : A)
| Panicked.
Arguments Panicked {A}.

(** ** Callback codec *)

Definition confirmationPrefix : string := "?".
Definition banPrefix : string := "+".
Definition infoPrefix : string := "!".

(** "remove prefix if present from the parsed data": the first byte is
    dropped when it is one of the three prefixes. *)
Definition stripActionPrefix (data : string) : string :=
  if String.eqb (GoStrings.head1 data) confirmationPrefix
     || String.eqb (GoStrings.head1 data) banPrefix
     || String.eqb (GoStrings.head1 data) infoPrefix
  then GoStrings.tail1 data else data.

(** [parseCallbackData]: the Go triple [(userID, msgID, err)]; on error the
    ids are zero, as in the source. *)
Definition parseCallbackData (data : string) : Z * Z * option error :=
  if GoStrings.len data <? 3 then
    (0, 0, Some (ErrMsg "unexpected callback data, too short" data))
  else
    let data := stripActionPrefix data in
    let parts := GoStrings.Split GoStrings.colon data in
    if negb (Nat.eqb (List.length parts) 2) then
      (0, 0, Some (ErrMsg "unexpected callback data, should have both ids" data))
    else
      let p0 := nth 0 parts EmptyString in
      let p1 := nth 1 parts EmptyString in
      match Strconv.ParseInt 64 p0 with
      | None => (0, 0, Some (ErrWrap "failed to parse userID" (ErrNum "ParseInt" p0)))
      | Some userID =>
          match Strconv.Atoi p1 with
          | None => (0, 0, Some (ErrWrap "failed to parse msgID" (ErrNum "Atoi" p1)))
          | Some msgID => (userID, msgID, None)
          end
      end.

(** [fmt.Sprintf("%s%d:%d", prefix, userID, msgID)], the payload put on the
    buttons by [sendWithUnbanMarkup]. *)
Definition buttonData (prefix : string) (userID msgID : Z) : string :=
  prefix ++ Strconv.FormatInt userID ++ String GoStrings.colon (Strconv.FormatInt msgID).

(** The four actions a button payload can carry; the handler selects one by
    the payload's first byte ([InlineCallbackHandler]). *)
Inductive Action : Type := AskConfirm | ConfirmBan | ShowInfo | Unban.

(** The prefix dispatch of [InlineCallbackHandler], in its order of tests. *)
Definition dispatch (callbackData : string) : Action :=
  if GoStrings.HasPrefix callbackData confirmationPrefix then AskConfirm
  else if GoStrings.HasPrefix callbackData banPrefix then ConfirmBan
  else if GoStrings.HasPrefix callbackData infoPrefix then ShowInfo
  else Unban.

(** Decoding as the handler performs it: the action from [dispatch], the ids
    from [parseCallbackData]. *)
Definition decode (data : string) : option (Action * Z * Z) :=
  match parseCallbackData data with
  | (userID, msgID, None) => Some (dispatch data, userID, msgID)
  | (_, _, Some _) => None
  end.

(** The wire format in the spec's words: [<prefix><userID>:<msgID>]. *)
Definition prefixOf (act : Action) : string :=
  match act with
  | Unban => EmptyString
  | AskConfirm => confirmationPrefix
  | ConfirmBan => banPrefix
  | ShowInfo => infoPrefix
  end.

Definition encode (act : Action) (userID msgID : Z) : string :=
  buttonData (prefixOf act) userID msgID.

(** ** Text extractor *)

Definition spamMarker : string := "spam detection results".

(** The [for i, line := range msgLines] loop: index of the first line with the
    marker prefix, counted from [i]. *)
Fixpoint firstMarker (i : Z) (msgLines : list string) : option Z :=
  match msgLines with
  | [] => None
  | line :: rest =>
      if GoStrings.HasPrefix line spamMarker then Some i
      else firstMarker (i + 1) rest
  end.

(** The slice expression [l[lo:hi]] on a slice whose capacity equals its
    length (as [strings.Split] returns): out of range bounds panic. *)
Definition slice {A : Type} (l : list A) (lo hi : Z) : outcome (list A) :=
  if (0 <=? lo) && (lo <=? hi) && (hi <=? Z.of_nat (List.length l))
  then Returned (firstn (Z.to_nat (hi - lo)) (skipn (Z.to_nat lo) l))
  else Panicked.

Definition getCleanMessage (msg : string) : outcome (string * option error) :=
  let msgLines := GoStrings.Split GoStrings.newline msg in
  if Z.of_nat (List.length msgLines) <? 2 then
    Returned (EmptyString, Some (ErrMsg "unexpected message from callback msgsData" msg))
  else
    let spamInfoLine :=
      match firstMarker 0 msgLines with
      | Some i => i - 1
      | None => Z.of_nat (List.length msgLines)
      end in
    match slice msgLines 2 spamInfoLine with
    | Returned body => Returned (GoStrings.Join GoStrings.newline body, None)
    | Panicked => Panicked
    end.

Definition nl : string := String GoStrings.newline EmptyString.

Definition adminLines (l : list string) : string := GoStrings.Join GoStrings.newline l.


(** ** Data exchanged with the transport and the collaborators *)

Record InlineKeyboardButton : Type := {
  ButtonText : string;
  CallbackData : string
}.

Definition InlineKeyboard : Type := list (list InlineKeyboardButton).

(** The [tbapi.Chattable] values admin.go builds. *)
Inductive Chattable : Type :=
| MessageConfig (chatID : Z) (text parseMode : string)
    (disableWebPagePreview : bool) (replyMarkup : option InlineKeyboard)
| EditMessageTextConfig (chatID msgID : Z) (text parseMode : string)
    (replyMarkup : option InlineKeyboard)
| EditMessageReplyMarkupConfig (chatID msgID : Z) (replyMarkup : InlineKeyboard)
| DeleteMessageConfig (chatID msgID : Z)
| UnbanChatMemberConfig (userID chatID : Z)
| CallbackConfig (queryID text : string).

(** [banRequest] (the [tbAPI] handle is the ambient transport). *)
Record banRequest : Type := {
  duration : Z;
  userID : Z;
  chatID : Z;
  dry : bool;
  training : bool
}.

(** Every call admin.go makes on a collaborator, on the transport, or on the
    two package helpers that live outside admin.go ([send] and
    [banUserOrChannel]). *)
Inductive Call : Type :=
| Bot_RemoveApprovedUser (id : Z)
| Bot_AddApprovedUser (id : Z) (name : string)
| Bot_UpdateSpam (msg : string)
| Bot_UpdateHam (msg : string)
| Bot_OnMessage (text : string) (fromID : Z)
| TbAPI_Send (c : Chattable)
| TbAPI_Request (c : Chattable)
| send (c : Chattable)
| banUserOrChannel (r : banRequest).

(** The calls issued so far, each with the error it returned ([None] is nil). *)
Definition Log : Type := list (Call * option error).

(** [locator.MsgMeta] as returned by [Locator.Message]. *)
Record MsgMeta : Type := {
  UserID : Z;
  UserName : string;
  MsgID : Z
}.

(** Everything outside admin.go.  Lookups are functions; every other call is
    answered by [reply], which may depend on the calls made before it. *)
Record World : Type := {
  Locator_Message : string -> option MsgMeta;
  Locator_Spam : Z -> option (list string);      (* Checks, each by String() *)
  Locator_UserNameByID : Z -> string;
  SuperUsers_IsSuper : string -> bool;
  OnMessage_CheckResults : string -> Z -> list string;
  reply : Log -> Call -> option error;
  escapeMarkDownV1Text : string -> string;
  PermanentBanDuration : Z;
  Quote : string -> string;                      (* the %q verb *)
  Error_string : error -> string;                (* err.Error() and %v *)
  sinceRounded : Z -> string;                    (* time.Since(..).Round(..) *)
  shrink : string -> Z -> string                 (* the closure of MsgHandler:
                                                    the first max runes, then
                                                    three dots *)
}.

Record admin : Type := {
  primChatID : Z;
  adminChatID : Z;
  trainingMode : bool;
  admin_dry : bool
}.

(** The fields of [tbapi.Update] read by [MsgHandler]. *)
Record Update : Type := {
  ForwardSenderName : string;
  ForwardFrom : option Z;          (* nil or the forwarded user *)
  MessageText : string
}.

(** The fields of [tbapi.CallbackQuery] read by the callbacks, for a query
    that comes with its sender, its message and the chat of the message (no
    nil pointer among [From], [Message] and [Message.Chat]); the keyboard of
    the message may be nil. *)
Record CallbackQuery : Type := {
  QueryID : string;
  Data : string;
  From_UserName : string;
  Message_Text : string;
  Message_ChatID : Z;
  Message_MessageID : Z;
  Message_Date : Z;
  Message_ReplyMarkup : option InlineKeyboard
}.

(** [bot.Message] as read by [ReportBan]. *)
Record BotMessage : Type := {
  BotMessage_Text : string;
  BotMessage_FromID : Z;
  BotMessage_ID : Z
}.

(** ** Sequential code with a call log and panics *)

Definition M (A : Type) : Type := Log -> outcome A * Log.

Definition ret {A : Type} (a : A) : M A := fun l => (Returned a, l).

Definition bind {A B : Type} (m : M A) (k : A -> M B) : M B :=
  fun l => match m l with
           | (Returned a, l') => k a l'
           | (Panicked, l') => (Panicked, l')
           end.

Definition panic {A : Type} : M A := fun l => (Panicked, l).

Definition liftOutcome {A : Type} (o : outcome A) : M A :=
  match o with
  | Returned a => ret a
  | Panicked => panic
  end.

Notation "x <- c ;; k" := (bind c (fun x => k))
  (at level 61, c at next level, right associativity).

Definition run {A : Type} (m : M A) : outcome A * Log := m [].

(** [multierror.Append(errs, fmt.Errorf(msg+": %w", err))] when [err != nil]. *)
Definition appendIf (errs : list error) (msg : string) (err : option error) : list error :=
  match err with
  | Some e => (errs ++ [ErrWrap msg e])%list
  | None => errs
  end.

(** [errs.ErrorOrNil()]. *)
Definition ErrorOrNil (errs : list error) : option error :=
  match errs with
  | [] => None
  | _ => Some (ErrMulti errs)
  end.

(** [fmt.Errorf(msg+": %w", err)] threaded through [if err != nil]. *)
Definition wrapIf (msg : string) (err : option error) : option error :=
  match err with
  | Some e => Some (ErrWrap msg e)
  | None => None
  end.

(** [s[1:]], which panics on the empty string. *)
Definition from1 (s : string) : outcome string :=
  match s with
  | EmptyString => Panicked
  | String _ rest => Returned rest
  end.

(** [row[:1]] on a keyboard row whose capacity equals its length. *)
Definition upto1 {A : Type} (row : list A) : outcome (list A) :=
  match row with
  | [] => Panicked
  | b :: _ => Returned [b]
  end.

(** [strings.ReplaceAll(s, "\n", " ")]. *)
Fixpoint newlinesToSpaces (s : string) : string :=
  match s with
  | EmptyString => EmptyString
  | String c rest =>
      String (if Ascii.eqb c GoStrings.newline then " "%char else c) (newlinesToSpaces rest)
  end.

Definition ModeMarkdown : string := "Markdown".

(** ** Username extractor

    The two patterns of [extractUsername], matched by hand.  Both are searched
    leftmost-first, as [FindStringSubmatch] does; [.] is any byte but a
    newline, [\d] an ASCII digit, [\S] any byte outside tab, newline, form
    feed, carriage return and space. *)

Module Extract.

Fixpoint skipDigits (s : string) : string :=
  match s with
  | String c rest => if Strconv.is_digit c then skipDigits rest else s
  | EmptyString => EmptyString
  end.

(** [\d+] followed by the byte [c]. *)
Definition digitsThen (c : ascii) (s : string) : option string :=
  match s with
  | String d rest =>
      if Strconv.is_digit d then
        match skipDigits rest with
        | String x rest' => if Ascii.eqb x c then Some rest' else None
        | EmptyString => None
        end
      else None
  | EmptyString => None
  end.

Fixpoint stripPrefix (p s : string) : option string :=
  match p, s with
  | EmptyString, _ => Some s
  | String a p', String b s' => if Ascii.eqb a b then stripPrefix p' s' else None
  | String _ _, EmptyString => None
  end.

(** [\]\(tg://user\?id=\d+\)] at the head of [s]. *)
Definition markdownTail (s : string) : bool :=
  match stripPrefix "](tg://user?id=" s with
  | Some rest => match digitsThen ")"%char rest with Some _ => true | None => false end
  | None => false
  end.

(** [(.*?)] followed by [markdownTail]: the shortest capture wins. *)
Fixpoint lazyName (s : string) : option string :=
  if markdownTail s then Some EmptyString
  else match s with
       | String c rest =>
           if Ascii.eqb c GoStrings.newline then None
           else option_map (String c) (lazyName rest)
       | EmptyString => None
       end.

Fixpoint findMarkdown (text : string) : option string :=
  match text with
  | EmptyString => None
  | String c rest =>
      match (if Ascii.eqb c "["%char then lazyName rest else None) with
      | Some name => Some name
      | None => findMarkdown rest
      end
  end.

Definition isSpace (c : ascii) : bool :=
  let n := nat_of_ascii c in
  Nat.eqb n 9 || Nat.eqb n 10 || Nat.eqb n 12 || Nat.eqb n 13 || Nat.eqb n 32.

(** The longest run of [\S] at the head, and what follows it. *)
Fixpoint spanNonSpace (s : string) : string * string :=
  match s with
  | String c rest =>
      if isSpace c then (EmptyString, s)
      else let (run, after) := spanNonSpace rest in (String c run, after)
  | EmptyString => (EmptyString, EmptyString)
  end.

(** A closing brace before the end of the line. *)
Fixpoint closesOnLine (s : string) : bool :=
  match s with
  | EmptyString => false
  | String c rest =>
      if Ascii.eqb c "}"%char then true
      else if Ascii.eqb c GoStrings.newline then false
      else closesOnLine rest
  end.

(** [\d+ (\S+) .+?\}] right after an opening brace. *)
Definition plainAfterBrace (s : string) : option string :=
  match digitsThen " "%char s with
  | Some afterID =>
      let (name, afterName) := spanNonSpace afterID in
      match name, afterName with
      | String _ _, String sp (String c1 rest) =>
          if Ascii.eqb sp " "%char && negb (Ascii.eqb c1 GoStrings.newline)
             && closesOnLine rest
          then Some name else None
      | _, _ => None
      end
  | None => None
  end.

Fixpoint findPlain (text : string) : option string :=
  match text with
  | EmptyString => None
  | String c rest =>
      match (if Ascii.eqb c "{"%char then plainAfterBrace rest else None) with
      | Some name => Some name
      | None => findPlain rest
      end
  end.

End Extract.

Definition extractUsername (text : string) : string * option error :=
  match Extract.findMarkdown text with
  | Some name => (name, None)
  | None =>
      match Extract.findPlain text with
      | Some name => (name, None)
      | None => (EmptyString, Some (ErrNew "username not found"))
      end
  end.

(** ** The admin helper *)

Section Admin.

Variable w : World.
Variable a : admin.

(** One call on the outside: the reply comes from the world, the call and
    its reply go to the log. *)
Definition call (c : Call) : M (option error) :=
  fun l => let r := reply w l c in (Returned r, (l ++ [(c, r)])%list).

(** [a.bot.OnMessage], whose result is a response rather than an error. *)
Definition callOnMessage (text : string) (fromID : Z) : M (list string) :=
  fun l => (Returned (OnMessage_CheckResults w text fromID),
            (l ++ [(Bot_OnMessage text fromID, None)])%list).

Definition spamInfoLines (checks : list string) : list string :=
  map (fun check => "- " ++ escapeMarkDownV1Text w check) checks.

Definition cantGetSpamInfo : string := "**can't get spam info**".

Definition detectionResultsText (info : MsgMeta) (spamInfoText : string) : string :=
  "**original detection results for " ++ Quote w (UserName info) ++ " ("
    ++ Strconv.FormatInt (UserID info) ++ ")**" ++ nl ++ nl ++ spamInfoText
    ++ nl ++ nl ++ nl ++ "*the user banned and message deleted*".

(** The super-user guard shared by [MsgHandler] and [deleteAndBan]. *)
Definition protectedName (userName : string) : bool :=
  negb (String.eqb userName EmptyString) && SuperUsers_IsSuper w userName.

Definition MsgHandler (update : Update) : M (option error) :=
  if String.eqb (ForwardSenderName update) EmptyString
     && match ForwardFrom update with None => true | Some _ => false end
  then ret None
  else
    let msgTxt := MessageText update in
    match Locator_Message w msgTxt with
    | None => ret (Some (ErrMsg "not found in locator" (shrink w msgTxt 50)))
    | Some info =>
        let errs := @nil error in
        if protectedName (UserName info) then
          ret (Some (ErrSuperUser (UserName info) (UserID info)))
        else
          err <- call (Bot_RemoveApprovedUser (UserID info)) ;;
          let errs := appendIf errs "failed to remove user from approved list" err in
          checks <- callOnMessage (MessageText update) (UserID info) ;;
          let spamInfo := spamInfoLines checks in
          let spamInfoText :=
            if (0 <? Z.of_nat (List.length spamInfo))
            then GoStrings.Join GoStrings.newline spamInfo
            else cantGetSpamInfo in
          let newMsgText := detectionResultsText info spamInfoText in
          err <- call (send (MessageConfig (adminChatID a) newMsgText EmptyString false None)) ;;
          let errs :=
            appendIf errs "failed to send spap detection results to admin chat" err in
          if admin_dry a then ret (ErrorOrNil errs)
          else
            err <- call (Bot_UpdateSpam msgTxt) ;;
            match err with
            | Some e => ret (Some (ErrWrap "failed to update spam" e))
            | None =>
                err <- call (TbAPI_Request (DeleteMessageConfig (primChatID a) (MsgID info))) ;;
                let errs := appendIf errs "failed to delete message" err in
                let banReq := {| duration := PermanentBanDuration w;
                                 userID := UserID info;
                                 chatID := primChatID a;
                                 dry := admin_dry a;
                                 training := trainingMode a |} in
                err <- call (banUserOrChannel banReq) ;;
                let errs := appendIf errs "failed to ban user" err in
                ret (ErrorOrNil errs)
            end
    end.

Definition sendWithUnbanMarkup (text action : string) (userID msgID chatID : Z)
  : M (option error) :=
  let markup :=
    [[ {| ButtonText := "⛔︎ " ++ action;
          CallbackData := buttonData confirmationPrefix userID msgID |};
       {| ButtonText := "️⚑ info";
          CallbackData := buttonData infoPrefix userID msgID |} ]] in
  err <- call (TbAPI_Send (MessageConfig chatID text ModeMarkdown true (Some markup))) ;;
  ret (wrapIf "can't send message to telegram" err).

Definition ReportBan (banUserStr : string) (msg : BotMessage) : M unit :=
  let text := newlinesToSpaces (escapeMarkDownV1Text w (BotMessage_Text msg)) in
  let forwardMsg :=
    "**permanently banned [" ++ banUserStr ++ "](tg://user?id="
      ++ Strconv.FormatInt (BotMessage_FromID msg) ++ ")**" ++ nl ++ nl ++ text ++ nl ++ nl in
  _ <- sendWithUnbanMarkup forwardMsg "change ban" (BotMessage_FromID msg)
         (BotMessage_ID msg) (adminChatID a) ;;
  ret tt.

Definition callbackAskBanConfirmation (query : CallbackQuery) : M (option error) :=
  let callbackData := Data query in
  let keepBanned := if trainingMode a then "Confirm ban" else "Keep it banned" in
  rest <- liftOutcome (from1 callbackData) ;;
  let confirmationKeyboard :=
    [[ {| ButtonText := "Unban for real"; CallbackData := rest |};
       {| ButtonText := keepBanned; CallbackData := banPrefix ++ rest |} ]] in
  err <- call (send (EditMessageReplyMarkupConfig (Message_ChatID query)
                       (Message_MessageID query) confirmationKeyboard)) ;;
  ret (wrapIf "failed to make confiramtion" err).

Definition deleteAndBan (query : CallbackQuery) (userID msgID : Z) : M (option error) :=
  let errs := @nil error in
  let banReq := {| duration := PermanentBanDuration w;
                   userID := userID;
                   chatID := primChatID a;
                   dry := admin_dry a;
                   training := false |} in
  let userName := Locator_UserNameByID w userID in
  let msgFromSuper := protectedName userName in
  errs <- (if negb msgFromSuper then
             err <- call (banUserOrChannel banReq) ;;
             ret (appendIf errs "failed to ban user" err)
           else ret errs) ;;
  err <- call (TbAPI_Request (DeleteMessageConfig (primChatID a) msgID)) ;;
  match err with
  | Some e => ret (Some (ErrWrap "failed to delete message" e))
  | None =>
      match ErrorOrNil errs with
      | Some _ =>
          ret (Some (ErrNew (GoStrings.Join GoStrings.newline (map (Error_string w) errs))))
      | None => ret None
      end
  end.

Definition banConfirmedText (query : CallbackQuery) : string :=
  Message_Text query ++ nl ++ nl ++ "_ban confirmed by " ++ From_UserName query
    ++ " in " ++ sinceRounded w (Message_Date query) ++ "_".

Definition callbackBanConfirmed (query : CallbackQuery) : M (option error) :=
  let updText := banConfirmedText query in
  let editMsg := EditMessageTextConfig (Message_ChatID query) (Message_MessageID query)
                   updText EmptyString (Some []) in
  err <- call (send editMsg) ;;
  match err with
  | Some e => ret (Some (ErrWrap "failed to clear confirmation" e))
  | None =>
      clean <- liftOutcome (getCleanMessage (Message_Text query)) ;;
      match clean with
      | (_, Some e) => ret (Some (ErrWrap "failed to get clean message" e))
      | (cleanMsg, None) =>
          err <- call (Bot_UpdateSpam cleanMsg) ;;
          match err with
          | Some e => ret (Some (ErrWrap "failed to update spam" e))
          | None =>
              match parseCallbackData (Data query) with
              | (_, _, Some parseErr) =>
                  ret (Some (ErrWrap "failed to parse callback's userID" parseErr))
              | (userID, msgID, None) =>
                  if trainingMode a then
                    err <- deleteAndBan query userID msgID ;;
                    match err with
                    | Some e => ret (Some (ErrWrap "failed to ban user" e))
                    | None => ret None
                    end
                  else ret None
              end
          end
      end
  end.

Definition unbannedText (query : CallbackQuery) : string :=
  Message_Text query ++ nl ++ nl ++ "_unbanned by " ++ From_UserName query
    ++ " in " ++ sinceRounded w (Message_Date query) ++ "_".

Definition callbackUnbanConfirmed (query : CallbackQuery) : M (option error) :=
  let callbackData := Data query in
  let chatID := Message_ChatID query in
  err <- call (TbAPI_Request (CallbackConfig (QueryID query) "accepted")) ;;
  match err with
  | Some e => ret (Some (ErrWrap "failed to send callback response" e))
  | None =>
      match parseCallbackData callbackData with
      | (_, _, Some e) => ret (Some (ErrWrap "failed to parse callback msgsData" e))
      | (userID, _, None) =>
          clean <- liftOutcome (getCleanMessage (Message_Text query)) ;;
          match clean with
          | (_, Some e) => ret (Some (ErrWrap "failed to get clean message" e))
          | (cleanMsg, None) =>
              derr <- call (Bot_UpdateHam cleanMsg) ;;
              match derr with
              | Some e => ret (Some (ErrWrap "failed to update ham" e))
              | None =>
                  err <- (if negb (trainingMode a)
                          then call (TbAPI_Request (UnbanChatMemberConfig userID (primChatID a)))
                          else ret None) ;;
                  match err with
                  | Some e => ret (Some (ErrWrap "failed to unban user" e))
                  | None =>
                      let name :=
                        match extractUsername (Message_Text query) with
                        | (_, Some _) => EmptyString
                        | (name, None) => name
                        end in
                      err <- call (Bot_AddApprovedUser userID name) ;;
                      match err with
                      | Some e => ret (Some (ErrWrap "failed to add user to approved list" e))
                      | None =>
                          let editMsg :=
                            EditMessageTextConfig chatID (Message_MessageID query)
                              (unbannedText query) EmptyString (Some []) in
                          err <- call (send editMsg) ;;
                          ret (wrapIf "failed to edit message" err)
                      end
                  end
              end
          end
      end
  end.

Definition callbackShowInfo (query : CallbackQuery) : M (option error) :=
  let callbackData := Data query in
  let spamInfo := @nil string in
  let '(userID, _, err) := parseCallbackData callbackData in
  spamInfo <- match err with
              | Some e =>
                  rest <- liftOutcome (from1 callbackData) ;;
                  let line := "**failed to parse userID from " ++ Quote w rest ++ ": "
                                ++ Error_string w e ++ "**" in
                  ret (spamInfo ++ [line])%list
              | None => ret spamInfo
              end ;;
  let spamInfoText :=
    if negb (userID =? 0) then
      let spamInfo :=
        match Locator_Spam w userID with
        | Some checks => (spamInfo ++ spamInfoLines checks)%list
        | None => spamInfo
        end in
      if (0 <? Z.of_nat (List.length spamInfo))
      then GoStrings.Join GoStrings.newline spamInfo
      else cantGetSpamInfo
    else cantGetSpamInfo in
  let updText := Message_Text query ++ nl ++ nl ++ "**spam detection results**" ++ nl
                   ++ spamInfoText in
  confirmationKeyboard <-
    match Message_ReplyMarkup query with
    | Some (row :: rows) =>
        row' <- liftOutcome (upto1 row) ;;
        ret (row' :: rows)
    | _ => ret []
    end ;;
  let editMsg := EditMessageTextConfig (Message_ChatID query) (Message_MessageID query)
                   updText ModeMarkdown (Some confirmationKeyboard) in
  err <- call (send editMsg) ;;
  ret (wrapIf "failed to send spam info" err).

Definition InlineCallbackHandler (query : CallbackQuery) : M (option error) :=
  let callbackData := Data query in
  let chatID := Message_ChatID query in
  if negb (chatID =? adminChatID a) then ret None
  else if GoStrings.HasPrefix callbackData confirmationPrefix then
    err <- callbackAskBanConfirmation query ;;
    ret (wrapIf "failed to make ban confirmation dialog" err)
  else if GoStrings.HasPrefix callbackData banPrefix then
    err <- callbackBanConfirmed query ;;
    ret (wrapIf "failed confirmation ban" err)
  else if GoStrings.HasPrefix callbackData infoPrefix then
    err <- callbackShowInfo query ;;
    ret (wrapIf "failed to show spam info" err)
  else
    err <- callbackUnbanConfirmed query ;;
    ret (wrapIf "failed to unban user" err).

End Admin.

(** * Properties *)

(** ** Splitting and joining *)

Section SplitJoin.

Import GoStrings.

Variable sep : ascii.

Definition free (s : string) : bool := all_bytes (fun c => negb (Ascii.eqb c sep)) s.

Lemma Split_nonempty (s : string) : Split sep s <> [].
Proof.
  induction s as [|c s IH]; simpl; [discriminate|].
  destruct (Ascii.eqb c sep); [discriminate|].
  destruct (Split sep s); [contradiction|discriminate].
Qed.

Lemma Split_length (s : string) : List.length (Split sep s) = S (Count sep s).
Proof.
  induction s as [|c s IH]; simpl; [reflexivity|].
  destruct (Ascii.eqb c sep); simpl; [now rewrite IH|].
  destruct (Split sep s) eqn:E; simpl in *; [discriminate|assumption].
Qed.

Lemma Split_free (s : string) : free s = true -> Split sep s = [s].
Proof.
  induction s as [|c s IH]; simpl; [reflexivity|].
  intros H. apply andb_prop in H as [Hc Hs].
  apply negb_true_iff in Hc. rewrite Hc, IH by assumption. reflexivity.
Qed.

Lemma Split_app (s t : string) :
  free s = true -> Split sep (s ++ String sep t) = s :: Split sep t.
Proof.
  induction s as [|c s IH]; simpl.
  - intros _. now rewrite Ascii.eqb_refl.
  - intros H. apply andb_prop in H as [Hc Hs].
    apply negb_true_iff in Hc. rewrite Hc, IH by assumption. reflexivity.
Qed.

Lemma Split_Join (l : list string) :
  l <> [] -> forallb free l = true -> Split sep (Join sep l) = l.
Proof.
  induction l as [|x l IH]; [congruence|].
  intros _ H. simpl in H. apply andb_prop in H as [Hx Hl].
  destruct l as [|y l].
  - simpl. now apply Split_free.
  - change (Join sep (x :: y :: l)) with (x ++ String sep (Join sep (y :: l))).
    rewrite Split_app by assumption. rewrite IH; [reflexivity|discriminate|assumption].
Qed.

End SplitJoin.

(** ** Decimal formatting and parsing *)

Section Decimal.

Import GoStrings Strconv.

Lemma digit_char_ok (d : Z) :
  0 <= d < 10 -> is_digit (digit_char d) = true /\ digit_val (digit_char d) = d.
Proof.
  intros H.
  assert (E : d = 0 \/ d = 1 \/ d = 2 \/ d = 3 \/ d = 4 \/ d = 5 \/ d = 6
              \/ d = 7 \/ d = 8 \/ d = 9) by lia.
  repeat (destruct E as [E|E]; [subst d; split; reflexivity|]).
  subst d; split; reflexivity.
Qed.

Lemma parse_digits_app (s t : string) (acc : Z) :
  parse_digits acc (s ++ t) =
  match parse_digits acc s with
  | Some v => parse_digits v t
  | None => None
  end.
Proof.
  revert acc. induction s as [|c s IH]; intros acc; simpl; [reflexivity|].
  destruct (is_digit c); [apply IH|reflexivity].
Qed.

Lemma all_bytes_app (p : ascii -> bool) (s t : string) :
  all_bytes p (s ++ t) = all_bytes p s && all_bytes p t.
Proof.
  induction s as [|c s IH]; simpl; [reflexivity|].
  now rewrite IH, andb_assoc.
Qed.

(** The digit string of [n] parses back to [n], holds digits only and is
    not empty, provided the fuel covers the digits of [n]. *)
Lemma digits_fuel_spec (f : nat) (n : Z) :
  0 <= n < 10 ^ (Z.of_nat f + 1) ->
  parse_digits 0 (digits_fuel f n) = Some n
  /\ all_bytes is_digit (digits_fuel f n) = true
  /\ digits_fuel f n <> EmptyString.
Proof.
  revert n. induction f as [|f IH]; intros n Hn.
  - change (10 ^ (Z.of_nat 0 + 1)) with 10 in Hn.
    simpl digits_fuel. rewrite Z.mod_small by lia.
    destruct (digit_char_ok Hn) as [Hd Hv].
    simpl. rewrite Hd, Hv. repeat split; try discriminate; try (f_equal; lia).
  - simpl digits_fuel. destruct (Z.ltb_spec n 10) as [Hlt|Hge].
    + destruct (@digit_char_ok n) as [Hd Hv]; [lia|].
      simpl. rewrite Hd, Hv. repeat split; try discriminate; try (f_equal; lia).
    + assert (Hq : 0 <= n / 10 < 10 ^ (Z.of_nat f + 1)).
      { split; [apply Z.div_pos; lia|].
        apply Z.div_lt_upper_bound; [lia|].
        replace (Z.of_nat (S f) + 1) with (Z.succ (Z.of_nat f + 1)) in Hn by lia.
        rewrite Z.pow_succ_r in Hn by lia. lia. }
      destruct (IH _ Hq) as (Hp & Ha & Hne).
      assert (Hm : 0 <= n mod 10 < 10) by (apply Z.mod_pos_bound; lia).
      destruct (digit_char_ok Hm) as [Hd Hv].
      repeat split.
      * rewrite parse_digits_app, Hp. cbn [parse_digits]. rewrite Hd, Hv.
        f_equal. pose proof (Z.div_mod n 10 ltac:(lia)). lia.
      * rewrite all_bytes_app, Ha. simpl. now rewrite Hd.
      * destruct (digits_fuel f (n / 10)); [contradiction|discriminate].
Qed.

Lemma digits_spec (n : Z) :
  0 <= n ->
  parse_digits 0 (digits n) = Some n
  /\ all_bytes is_digit (digits n) = true
  /\ digits n <> EmptyString.
Proof.
  intros Hn. apply digits_fuel_spec. split; [assumption|].
  destruct (Z.eq_dec n 0) as [->|Hnz]; [reflexivity|].
  rewrite Z2Nat.id by apply Z.log2_nonneg.
  pose proof (Z.log2_spec n ltac:(lia)) as [_ Hup].
  eapply Z.lt_le_trans; [exact Hup|].
  replace (Z.succ (Z.log2 n)) with (Z.log2 n + 1) by lia.
  apply Z.pow_le_mono_l. lia.
Qed.

(** A digit is none of the bytes the codec gives a meaning to. *)
Lemma digit_not_special (c : ascii) :
  is_digit c = true ->
  Ascii.eqb c "?"%char = false /\ Ascii.eqb c "+"%char = false
  /\ Ascii.eqb c "!"%char = false /\ Ascii.eqb c "-"%char = false
  /\ Ascii.eqb c ":"%char = false.
Proof.
  intros H. repeat split.
  all: match goal with
       | |- Ascii.eqb ?y ?x = false =>
           destruct (Ascii.eqb_spec y x) as [E|]; [rewrite E in H; discriminate H|reflexivity]
       end.
Qed.

Lemma digits_free_of_colon (s : string) :
  all_bytes is_digit s = true -> free colon s = true.
Proof.
  unfold free, colon.
  induction s as [|c s IH]; simpl; [reflexivity|].
  intros H. apply andb_prop in H as [Hc Hs].
  destruct (digit_not_special _ Hc) as (_ & _ & _ & _ & Hcol).
  rewrite Hcol. simpl. now apply IH.
Qed.

(** Parsing what [%d] printed gives the number back, within the signed
    range of [bits] bits. *)
Lemma ParseInt_FormatInt (bits n : Z) :
  0 <= n < 2 ^ (bits - 1) -> ParseInt bits (FormatInt n) = Some n.
Proof.
  intros Hn. unfold FormatInt.
  destruct (Z.ltb_spec n 0) as [?|_]; [lia|].
  destruct (digits_spec (proj1 Hn)) as (Hp & Ha & Hne).
  destruct (digits n) as [|c s] eqn:E; [contradiction|].
  simpl in Ha. apply andb_prop in Ha as [Hc _].
  destruct (digit_not_special _ Hc) as (_ & Hplus & _ & Hminus & _).
  unfold ParseInt. rewrite Hplus, Hminus.
  unfold parse_unsigned. rewrite Hp.
  destruct (Z.ltb_spec n (2 ^ (bits - 1))); [reflexivity|lia].
Qed.

End Decimal.

(** ** Callback codec *)

Section Codec.

Import GoStrings Strconv.

(** A payload body [<userID>:<msgID>] as [%d:%d] prints it. *)
Definition idsText (userID msgID : Z) : string :=
  FormatInt userID ++ String colon (FormatInt msgID).

Lemma encode_unfold (act : Action) (userID msgID : Z) :
  encode act userID msgID = prefixOf act ++ idsText userID msgID.
Proof. reflexivity. Qed.

Lemma FormatInt_digits (n : Z) :
  0 <= n ->
  exists c s, FormatInt n = String c s /\ is_digit c = true
              /\ all_bytes is_digit (FormatInt n) = true.
Proof.
  intros Hn. unfold FormatInt.
  destruct (Z.ltb_spec n 0) as [?|_]; [lia|].
  destruct (digits_spec Hn) as (_ & Ha & Hne).
  destruct (digits n) as [|c s]; [contradiction|].
  exists c, s. repeat split; [|assumption].
  simpl in Ha. now apply andb_prop in Ha as [Hc _].
Qed.

Lemma Split_idsText (userID msgID : Z) :
  0 <= userID -> 0 <= msgID ->
  Split colon (idsText userID msgID) = [FormatInt userID; FormatInt msgID].
Proof.
  intros Hu Hm. unfold idsText.
  destruct (FormatInt_digits Hu) as (_ & _ & _ & _ & Hau).
  destruct (FormatInt_digits Hm) as (_ & _ & _ & _ & Ham).
  rewrite Split_app by now apply digits_free_of_colon.
  rewrite Split_free by now apply digits_free_of_colon.
  reflexivity.
Qed.

(** A body that starts with a digit carries no prefix: nothing is stripped
    and the handler takes it for an unban. *)
Lemma idsText_no_prefix (userID msgID : Z) :
  0 <= userID ->
  stripActionPrefix (idsText userID msgID) = idsText userID msgID
  /\ dispatch (idsText userID msgID) = Unban.
Proof.
  intros Hu. unfold idsText.
  destruct (FormatInt_digits Hu) as (c & s & E & Hc & _). rewrite E.
  destruct (digit_not_special _ Hc) as (Hq & Hp & Hb & _ & _).
  unfold stripActionPrefix, dispatch, confirmationPrefix, banPrefix, infoPrefix.
  simpl. rewrite Hq, Hp, Hb. split; reflexivity.
Qed.

Lemma idsText_length (userID msgID : Z) :
  0 <= userID -> 0 <= msgID -> (3 <= String.length (idsText userID msgID))%nat.
Proof.
  intros Hu Hm. unfold idsText.
  destruct (FormatInt_digits Hu) as (c & s & E & _). rewrite E.
  destruct (FormatInt_digits Hm) as (c' & s' & E' & _). rewrite E'.
  simpl. clear. induction s as [|x s IH]; simpl; lia.
Qed.

Lemma parse_payload (data : string) (userID msgID : Z) :
  0 <= userID < 2 ^ 63 -> 0 <= msgID < 2 ^ 63 ->
  (3 <= String.length data)%nat ->
  stripActionPrefix data = idsText userID msgID ->
  parseCallbackData data = (userID, msgID, None).
Proof.
  intros Hu Hm Hlen Hstrip. unfold parseCallbackData, len.
  destruct (Z.ltb_spec (Z.of_nat (String.length data)) 3); [lia|].
  rewrite Hstrip, Split_idsText by lia. simpl.
  unfold Atoi, intSize.
  rewrite !ParseInt_FormatInt by (simpl; lia). reflexivity.
Qed.

(** C2. Round trip of the callback codec: for each of the four actions and
    all non-negative ids in the range of the Go types, decoding the payload
    [<prefix><userID>:<msgID>] gives back the action and both ids. *)
Theorem decode_encode_roundtrip (act : Action) (userID msgID : Z) :
  0 <= userID < 2 ^ 63 -> 0 <= msgID < 2 ^ 63 ->
  decode (encode act userID msgID) = Some (act, userID, msgID).
Proof.
  intros Hu Hm. rewrite encode_unfold. unfold decode.
  pose proof (idsText_length (proj1 Hu) (proj1 Hm)) as Hlen.
  destruct (idsText_no_prefix msgID (proj1 Hu)) as [Hstrip Hdisp].
  destruct act; simpl prefixOf.
  - rewrite (@parse_payload _ userID msgID) by (simpl; auto; lia). reflexivity.
  - rewrite (@parse_payload _ userID msgID) by (simpl; auto; lia). reflexivity.
  - rewrite (@parse_payload _ userID msgID) by (simpl; auto; lia). reflexivity.
  - simpl append. rewrite (@parse_payload _ userID msgID) by auto.
    now rewrite Hdisp.
Qed.

Lemma decode_encode_roundtrip_witness :
  decode (encode ConfirmBan 7 100) = Some (ConfirmBan, 7, 100).
Proof. apply decode_encode_roundtrip; lia. Defined.

(** C6. Malformed payloads: an input shorter than three bytes, or without
    exactly one colon once a recognised prefix byte is stripped, or with a
    half that is not an integer of the Go type, makes [parseCallbackData]
    return an error (with zero ids) and so [decode] fails.  Decoding is a
    function of the payload alone: it takes no log and issues no call.  A
    payload whose first byte is none of the three prefixes is dispatched as
    Unban, with nothing stripped. *)
Theorem decode_malformed (data : string) :
  ((String.length data < 3)%nat
   \/ Count colon (stripActionPrefix data) <> 1%nat
   \/ (exists l r, Split colon (stripActionPrefix data) = [l; r]
                   /\ (ParseInt 64 l = None \/ Atoi r = None))
   -> (exists e, parseCallbackData data = (0, 0, Some e)) /\ decode data = None)
  /\ ((forall c rest, data = String c rest ->
                      c <> "?"%char /\ c <> "+"%char /\ c <> "!"%char)
      -> dispatch data = Unban /\ stripActionPrefix data = data).
Proof.
  split.
  - intros H.
    assert (G : exists e, parseCallbackData data = (0, 0, Some e)).
    { unfold parseCallbackData, len.
      destruct (Z.ltb_spec (Z.of_nat (String.length data)) 3) as [|Hlen];
        [eexists; reflexivity|].
      destruct H as [H|[H|(l & r & Hs & H)]]; [lia| |].
      - pose proof (Split_length colon (stripActionPrefix data)) as HL.
        destruct (Nat.eqb_spec (List.length (Split colon (stripActionPrefix data))) 2)
          as [E|_]; [exfalso; apply H; lia|].
        eexists; reflexivity.
      - rewrite Hs. simpl.
        destruct (ParseInt 64 l) as [u|]; [|eexists; reflexivity].
        destruct (Atoi r) as [m|]; [|eexists; reflexivity].
        destruct H; discriminate. }
    split; [assumption|].
    destruct G as [e G]. unfold decode. now rewrite G.
  - intros H. destruct data as [|c rest]; [split; reflexivity|].
    destruct (H c rest eq_refl) as (Hq & Hp & Hb).
    apply Ascii.eqb_neq in Hq, Hp, Hb.
    unfold dispatch, stripActionPrefix, confirmationPrefix, banPrefix, infoPrefix.
    simpl. rewrite Hq, Hp, Hb. split; reflexivity.
Qed.

Lemma decode_malformed_witness :
  decode "?1:" = None /\ decode "1:2:3" = None /\ decode "12:x4" = None
  /\ dispatch "12:34" = Unban.
Proof.
  split; [|split; [|split]].
  - apply (proj1 (decode_malformed "?1:")). right. right.
    exists "1", EmptyString. split; [reflexivity|]. right. reflexivity.
  - apply (proj1 (decode_malformed "1:2:3")). right. left. simpl. lia.
  - apply (proj1 (decode_malformed "12:x4")). right. right.
    exists "12", "x4". split; [reflexivity|]. right. reflexivity.
  - apply (proj2 (decode_malformed "12:34")).
    intros c rest E. injection E as <- _. split; [|split]; discriminate.
Defined.

End Codec.

(** ** Bytes of a well-formed payload

    A payload that decodes is made of ASCII bytes only, so its length in
    characters is its length in bytes, which is at least three. *)

Section PayloadBytes.

Import GoStrings Strconv.

Definition isPayloadByte (c : ascii) : bool :=
  is_digit c || Ascii.eqb c "?"%char || Ascii.eqb c "+"%char || Ascii.eqb c "!"%char
  || Ascii.eqb c "-"%char || Ascii.eqb c ":"%char.

Lemma isPayloadByte_ascii (c : ascii) :
  isPayloadByte c = true -> (nat_of_ascii c < 128)%nat.
Proof.
  unfold isPayloadByte, is_digit. cbv zeta. intros H.
  repeat (apply orb_prop in H as [H|H]).
  - apply andb_prop in H as [_ H]. apply Z.leb_le in H. lia.
  - apply Ascii.eqb_eq in H. subst c. apply Nat.ltb_lt. reflexivity.
  - apply Ascii.eqb_eq in H. subst c. apply Nat.ltb_lt. reflexivity.
  - apply Ascii.eqb_eq in H. subst c. apply Nat.ltb_lt. reflexivity.
  - apply Ascii.eqb_eq in H. subst c. apply Nat.ltb_lt. reflexivity.
  - apply Ascii.eqb_eq in H. subst c. apply Nat.ltb_lt. reflexivity.
Qed.

Lemma Join_Split (sep : ascii) (s : string) : Join sep (Split sep s) = s.
Proof.
  induction s as [|c s IH]; [reflexivity|].
  cbn [Split]. pose proof (Split_nonempty sep s) as Hne.
  destruct (Split sep s) as [|h t] eqn:E; [contradiction|].
  destruct (Ascii.eqb_spec c sep) as [->|_].
  - rewrite <- IH. reflexivity.
  - rewrite <- IH. destruct t; reflexivity.
Qed.

Lemma parse_digits_bytes (s : string) (acc v : Z) :
  parse_digits acc s = Some v -> all_bytes isPayloadByte s = true.
Proof.
  revert acc. induction s as [|c s IH]; intros acc H; [reflexivity|].
  cbn [parse_digits] in H. destruct (is_digit c) eqn:Hc; [|discriminate].
  cbn [all_bytes]. unfold isPayloadByte at 1. rewrite Hc. cbn [orb andb].
  eapply IH; eassumption.
Qed.

Lemma ParseInt_bytes (bits : Z) (s : string) (v : Z) :
  ParseInt bits s = Some v -> all_bytes isPayloadByte s = true.
Proof.
  unfold ParseInt, parse_unsigned. destruct s as [|c s]; [discriminate|].
  destruct (Ascii.eqb c "+"%char) eqn:Hplus.
  - destruct s as [|d s]; [discriminate|].
    remember (String d s) as t.
    destruct (parse_digits 0 t) as [un|] eqn:E; [|discriminate].
    intros _. cbn [all_bytes]. unfold isPayloadByte at 1. rewrite Hplus.
    rewrite !orb_true_r. cbn [orb andb]. eapply parse_digits_bytes; eassumption.
  - destruct (Ascii.eqb c "-"%char) eqn:Hminus.
    + destruct s as [|d s]; [discriminate|].
      remember (String d s) as t.
      destruct (parse_digits 0 t) as [un|] eqn:E; [|discriminate].
      intros _. cbn [all_bytes]. unfold isPayloadByte at 1. rewrite Hminus.
      rewrite !orb_true_r. cbn [orb andb]. eapply parse_digits_bytes; eassumption.
    + destruct (parse_digits 0 (String c s)) as [un|] eqn:E; [|discriminate].
      intros _. eapply parse_digits_bytes; eassumption.
Qed.

(** X5.  A payload that decodes has at least three bytes, all of them ASCII: the
    digits, the two signs, the colon and the three prefix bytes. *)
Lemma decode_success_bytes (data : string) (act : Action) (uid mid : Z) :
  decode data = Some (act, uid, mid) ->
  (3 <= String.length data)%nat /\ all_bytes isPayloadByte data = true.
Proof.
  unfold decode, parseCallbackData, len.
  destruct (Z.ltb_spec (Z.of_nat (String.length data)) 3) as [|Hlen]; [discriminate|].
  pose proof (Join_Split colon (stripActionPrefix data)) as HJ.
  destruct (Split colon (stripActionPrefix data)) as [|p0 [|p1 [|p2 t]]];
    cbn [List.length Nat.eqb negb nth]; try discriminate.
  destruct (ParseInt 64 p0) as [u|] eqn:E0; [|discriminate].
  destruct (Atoi p1) as [m|] eqn:E1; [|discriminate].
  intros _. split; [lia|].
  apply ParseInt_bytes in E0. apply ParseInt_bytes in E1.
  assert (Hs : all_bytes isPayloadByte (stripActionPrefix data) = true).
  { rewrite <- HJ. cbn [Join]. rewrite all_bytes_app, E0. cbn [all_bytes andb].
    now rewrite E1. }
  revert Hs. unfold stripActionPrefix, confirmationPrefix, banPrefix, infoPrefix.
  destruct data as [|c rest]; [reflexivity|].
  cbn [head1 tail1 String.eqb]. cbn [all_bytes].
  unfold isPayloadByte at 2.
  destruct (Ascii.eqb c "?"%char) eqn:Hq;
    [cbn [orb]; intros ->; now rewrite !orb_true_r|].
  destruct (Ascii.eqb c "+"%char) eqn:Hp;
    [cbn [orb]; intros ->; now rewrite !orb_true_r|].
  destruct (Ascii.eqb c "!"%char) eqn:Hb;
    [cbn [orb]; intros ->; now rewrite !orb_true_r|].
  cbn [orb all_bytes]. intros Hs. apply andb_prop in Hs as [Hc Hr].
  unfold isPayloadByte in Hc. rewrite Hq, Hp, Hb in Hc. now rewrite Hc, Hr.
Qed.

End PayloadBytes.

(** ** Text extractor *)

Section Extractor.

Import GoStrings.
Local Open Scope list_scope.

Definition unmarked (line : string) : bool := negb (HasPrefix line spamMarker).

Lemma firstMarker_app (pre rest : list string) (marker : string) (i : Z) :
  forallb unmarked pre = true ->
  HasPrefix marker spamMarker = true ->
  firstMarker i (pre ++ marker :: rest) = Some (i + Z.of_nat (List.length pre)).
Proof.
  intros Hpre Hm. revert i.
  induction pre as [|x pre IH]; intros i.
  - cbn [app firstMarker List.length]. rewrite Hm. f_equal. lia.
  - cbn [forallb] in Hpre. apply andb_prop in Hpre as [Hx Hpre].
    apply negb_true_iff in Hx.
    cbn [app firstMarker]. rewrite Hx, IH by assumption.
    f_equal. cbn [List.length]. lia.
Qed.

Lemma firstMarker_none (l : list string) (i : Z) :
  forallb unmarked l = true -> firstMarker i l = None.
Proof.
  revert i. induction l as [|x l IH]; intros i H; [reflexivity|].
  cbn [forallb] in H. apply andb_prop in H as [Hx Hl].
  apply negb_true_iff in Hx. cbn [firstMarker]. rewrite Hx. now apply IH.
Qed.

Lemma firstn_app_exact {A : Type} (l l' : list A) :
  firstn (List.length l) (l ++ l') = l.
Proof. induction l as [|x l IH]; simpl; [reflexivity|now rewrite IH]. Qed.

(** The body is what lies between the two header lines and the line right
    above the marker; that line itself is dropped. *)
Lemma getCleanMessage_with_marker (h1 h2 sep marker : string) (body rest : list string) :
  forallb (free newline) (h1 :: h2 :: body ++ sep :: marker :: rest) = true ->
  forallb unmarked (h1 :: h2 :: body ++ [sep]) = true ->
  HasPrefix marker spamMarker = true ->
  getCleanMessage (adminLines (h1 :: h2 :: body ++ sep :: marker :: rest))
  = Returned (adminLines body, None).
Proof.
  intros Hfree Hun Hm. unfold getCleanMessage, adminLines.
  rewrite Split_Join by (assumption || discriminate).
  set (l := h1 :: h2 :: body ++ sep :: marker :: rest).
  assert (Hl : l = (h1 :: h2 :: body ++ [sep]) ++ marker :: rest).
  { unfold l. cbn [app]. now rewrite <- app_assoc. }
  assert (Hlen : List.length l = (List.length body + 4 + List.length rest)%nat).
  { unfold l. cbn [List.length]. rewrite length_app. cbn [List.length]. lia. }
  destruct (Z.ltb_spec (Z.of_nat (List.length l)) 2); [lia|].
  assert (Hfm : firstMarker 0 l = Some (Z.of_nat (List.length body) + 3)).
  { rewrite Hl, (@firstMarker_app _ rest marker 0 Hun Hm).
    cbn [List.length]. rewrite length_app. cbn [List.length]. f_equal. lia. }
  rewrite Hfm. unfold slice.
  replace (0 <=? 2) with true by reflexivity.
  destruct (Z.leb_spec 2 (Z.of_nat (List.length body) + 3 - 1)); [|lia].
  destruct (Z.leb_spec (Z.of_nat (List.length body) + 3 - 1)
              (Z.of_nat (List.length l))); [|lia].
  cbn [andb].
  replace (Z.to_nat (Z.of_nat (List.length body) + 3 - 1 - 2))
    with (List.length body) by lia.
  change (Z.to_nat 2) with 2%nat. unfold l. cbn [skipn].
  now rewrite firstn_app_exact.
Qed.

(** Without a marker the body runs to the end of the text. *)
Lemma getCleanMessage_without_marker (h1 h2 : string) (body : list string) :
  forallb (free newline) (h1 :: h2 :: body) = true ->
  forallb unmarked (h1 :: h2 :: body) = true ->
  getCleanMessage (adminLines (h1 :: h2 :: body)) = Returned (adminLines body, None).
Proof.
  intros Hfree Hun. unfold getCleanMessage, adminLines.
  rewrite Split_Join by (assumption || discriminate).
  rewrite firstMarker_none by assumption.
  cbn [List.length].
  destruct (Z.ltb_spec (Z.of_nat (S (S (List.length body)))) 2); [lia|].
  unfold slice.
  replace (0 <=? 2) with true by reflexivity.
  destruct (Z.leb_spec 2 (Z.of_nat (S (S (List.length body))))); [|lia].
  rewrite Z.leb_refl. cbn [andb].
  replace (Z.to_nat (Z.of_nat (S (S (List.length body))) - 2))
    with (List.length body) by lia.
  change (Z.to_nat 2) with 2%nat. cbn [skipn].
  now rewrite firstn_all.
Qed.

Definition specExample : list string :=
  ["header"; EmptyString; "body1"; "body2"; "spam detection results"; "- x"].

(** C1, as amended.  On the line list [header; (empty); body1; body2;
    spam detection results; - x] the function returns [body1]: it finds the
    first line with the marker prefix and returns the lines from the third
    one up to, and not including, the line right above the marker.  In
    general, with two header lines, a body, one more line, the marker line
    and anything after it, the result is the body joined by newlines. *)
Theorem getCleanMessage_stops_above_marker :
  getCleanMessage (adminLines specExample) = Returned ("body1", None)
  /\ forall (h1 h2 sep marker : string) (body rest : list string),
       forallb (free newline) (h1 :: h2 :: body ++ sep :: marker :: rest) = true ->
       forallb unmarked (h1 :: h2 :: body ++ [sep]) = true ->
       HasPrefix marker spamMarker = true ->
       getCleanMessage (adminLines (h1 :: h2 :: body ++ sep :: marker :: rest))
       = Returned (adminLines body, None).
Proof.
  split; [reflexivity|]. intros. now apply getCleanMessage_with_marker.
Qed.

Lemma getCleanMessage_stops_above_marker_witness :
  getCleanMessage
    (adminLines ["Line 1"; EmptyString; "Line 3"; "Line 4"; EmptyString; "spam detection results"; "Line 6"])
  = Returned (adminLines ["Line 3"; "Line 4"], None).
Proof.
  apply (proj2 getCleanMessage_stops_above_marker
           "Line 1" EmptyString EmptyString "spam detection results" ["Line 3"; "Line 4"] ["Line 6"]);
    reflexivity.
Defined.

(** C1 as the spec states it fails: the result is not [body1], newline,
    [body2]. *)
Lemma getCleanMessage_spec_example_differs :
  getCleanMessage (adminLines specExample) <> Returned (("body1" ++ nl ++ "body2")%string, None).
Proof. vm_compute. discriminate. Qed.

End Extractor.

(** ** Handling a forwarded report *)

Section Report.

Local Open Scope list_scope.

(** The message is a forward: the test that lets [MsgHandler] go on. *)
Definition isForwarded (update : Update) : bool :=
  negb (String.eqb (ForwardSenderName update) EmptyString
        && match ForwardFrom update with None => true | Some _ => false end).

(** The notification [MsgHandler] sends to the admin chat. *)
Definition notification (w : World) (a : admin) (update : Update) (info : MsgMeta)
  : Chattable :=
  let spamInfo :=
    spamInfoLines w (OnMessage_CheckResults w (MessageText update) (UserID info)) in
  MessageConfig (adminChatID a)
    (detectionResultsText w info
       (if (0 <? Z.of_nat (List.length spamInfo))
        then GoStrings.Join GoStrings.newline spamInfo
        else cantGetSpamInfo))
    EmptyString false None.

Definition banRequestOf (w : World) (a : admin) (userID : Z) (training : bool) : banRequest :=
  {| duration := PermanentBanDuration w;
     userID := userID;
     chatID := primChatID a;
     dry := admin_dry a;
     training := training |}.


Variable w : World.
Variable a : admin.
Variable update : Update.
Variable info : MsgMeta.

Hypothesis Hforwarded : isForwarded update = true.
Hypothesis Hfound : Locator_Message w (MessageText update) = Some info.

(** A protected user: the handler returns the error at once, before any
    call is made. *)
Lemma MsgHandler_protected :
  protectedName w (UserName info) = true ->
  run (MsgHandler w a update)
  = (Returned (Some (ErrSuperUser (UserName info) (UserID info))), []).
Proof.
  intros Hp. unfold MsgHandler, isForwarded in *.
  apply negb_true_iff in Hforwarded. rewrite Hforwarded, Hfound, Hp. reflexivity.
Qed.





End Report.

(** ** A concrete setting

    The end-to-end example of the spec: the text [buy cheap meds] correlates
    to user 7 and message 100; the user name, the super-user test and the
    calls that fail are left to choose. *)

Definition sampleInfo (name : string) : MsgMeta :=
  {| UserID := 7; UserName := name; MsgID := 100 |}.

Definition sampleWorld (name : string) (isSuper : string -> bool) (failing : Call -> bool)
  : World :=
  {| Locator_Message :=
       fun text => if String.eqb text "buy cheap meds" then Some (sampleInfo name) else None;
     Locator_Spam := fun _ => None;
     Locator_UserNameByID := fun id => if id =? 7 then name else EmptyString;
     SuperUsers_IsSuper := isSuper;
     OnMessage_CheckResults := fun _ _ => ["stopword: meds"];
     reply := fun _ c => if failing c then Some (ErrExternal "unavailable") else None;
     escapeMarkDownV1Text := fun s => s;
     PermanentBanDuration := 34560000;
     Quote := fun s => "'" ++ s ++ "'";
     Error_string := fun _ => "error";
     sinceRounded := fun _ => "5s";
     shrink := fun s _ => s |}.

Definition sampleAdmin (training dryRun : bool) : admin :=
  {| primChatID := 1; adminChatID := 2; trainingMode := training; admin_dry := dryRun |}.

Definition sampleUpdate : Update :=
  {| ForwardSenderName := "bob"; ForwardFrom := None; MessageText := "buy cheap meds" |}.

Definition nothingFails (c : Call) : bool := false.

Definition everyoneIsSuper (name : string) : bool := true.

Definition nobodyIsSuper (name : string) : bool := false.

(** All the steps [MsgHandler] collects errors from fail; the sample update
    does not. *)
Definition collectedStepsFail (c : Call) : bool :=
  match c with
  | Bot_UpdateSpam _ => false
  | _ => true
  end.

Definition sampleUpdateFails (c : Call) : bool :=
  match c with
  | Bot_UpdateSpam _ => true
  | _ => false
  end.

(** C3, as amended.  When the correlated record's username is not empty and
    is on the super-user list, [MsgHandler] returns the super-user error and
    has made no call at all: no approved-list removal, no notification, no
    sample update, no delete, no ban. *)
Theorem MsgHandler_superuser_no_calls (w : World) (a : admin) (update : Update) (info : MsgMeta) :
  isForwarded update = true ->
  Locator_Message w (MessageText update) = Some info ->
  UserName info <> EmptyString ->
  SuperUsers_IsSuper w (UserName info) = true ->
  run (MsgHandler w a update)
  = (Returned (Some (ErrSuperUser (UserName info) (UserID info))), []).
Proof.
  intros Hfw Hfound Hne Hsuper.
  apply MsgHandler_protected; try assumption.
  unfold protectedName. rewrite Hsuper.
  apply String.eqb_neq in Hne. now rewrite Hne.
Qed.

Lemma MsgHandler_superuser_no_calls_witness :
  run (MsgHandler (sampleWorld "alice" (String.eqb "alice") nothingFails)
         (sampleAdmin false false) sampleUpdate)
  = (Returned (Some (ErrSuperUser "alice" 7)), []).
Proof.
  apply (@MsgHandler_superuser_no_calls
           (sampleWorld "alice" (String.eqb "alice") nothingFails)
           (sampleAdmin false false) sampleUpdate (sampleInfo "alice"));
    [reflexivity|reflexivity|discriminate|reflexivity].
Defined.

(** C3 as stated fails when the list answers yes for the empty username: the
    guard skips the test for an empty name, and the user is removed from the
    approved list, the message deleted and the ban requested. *)
Lemma MsgHandler_superuser_empty_name_counterexample :
  let w := sampleWorld EmptyString everyoneIsSuper nothingFails in
  let a := sampleAdmin false false in
  isForwarded sampleUpdate = true
  /\ Locator_Message w (MessageText sampleUpdate) = Some (sampleInfo EmptyString)
  /\ SuperUsers_IsSuper w (UserName (sampleInfo EmptyString)) = true
  /\ fst (run (MsgHandler w a sampleUpdate)) = Returned None
  /\ In (Bot_RemoveApprovedUser 7, None) (snd (run (MsgHandler w a sampleUpdate)))
  /\ In (TbAPI_Request (DeleteMessageConfig 1 100), None)
       (snd (run (MsgHandler w a sampleUpdate)))
  /\ In (banUserOrChannel (banRequestOf w a 7 false), None)
       (snd (run (MsgHandler w a sampleUpdate))).
Proof.
  cbv zeta. repeat split; vm_compute; tauto.
Qed.



(** The end-to-end example with every collected step failing: the delete and
    the ban are still attempted, and all four failures are reported. *)
Example MsgHandler_all_collected_steps_fail :
  let w := sampleWorld "bob" nobodyIsSuper collectedStepsFail in
  let a := sampleAdmin false false in
  let failed := Some (ErrExternal "unavailable") in
  map fst (snd (run (MsgHandler w a sampleUpdate)))
  = [ Bot_RemoveApprovedUser 7;
      Bot_OnMessage "buy cheap meds" 7;
      send (notification w a sampleUpdate (sampleInfo "bob"));
      Bot_UpdateSpam "buy cheap meds";
      TbAPI_Request (DeleteMessageConfig 1 100);
      banUserOrChannel (banRequestOf w a 7 false) ]
  /\ fst (run (MsgHandler w a sampleUpdate))
     = Returned (Some (ErrMulti
         [ ErrWrap "failed to remove user from approved list" (ErrExternal "unavailable");
           ErrWrap "failed to send spap detection results to admin chat"
             (ErrExternal "unavailable");
           ErrWrap "failed to delete message" (ErrExternal "unavailable");
           ErrWrap "failed to ban user" (ErrExternal "unavailable") ])).
Proof. split; reflexivity. Qed.

(** The same example with the sample update failing: the run stops there. *)
Example MsgHandler_sample_update_fails :
  let w := sampleWorld "bob" nobodyIsSuper sampleUpdateFails in
  let a := sampleAdmin false false in
  map fst (snd (run (MsgHandler w a sampleUpdate)))
  = [ Bot_RemoveApprovedUser 7;
      Bot_OnMessage "buy cheap meds" 7;
      send (notification w a sampleUpdate (sampleInfo "bob"));
      Bot_UpdateSpam "buy cheap meds" ]
  /\ fst (run (MsgHandler w a sampleUpdate))
     = Returned (Some (ErrWrap "failed to update spam" (ErrExternal "unavailable"))).
Proof. split; reflexivity. Qed.

(** A call that puts a message into a chat or edits one. *)
Definition isSend (c : Call) : bool :=
  match c with
  | send _ | TbAPI_Send _ => true
  | _ => false
  end.

(** C7, as amended.  When [MsgHandler] stops on a protected super-user it
    sends nothing to the admin chat; the outcome is reported to the caller
    only, as the returned error, which names the user and the user id. *)
Theorem MsgHandler_superuser_sends_nothing
  (w : World) (a : admin) (update : Update) (info : MsgMeta) :
  isForwarded update = true ->
  Locator_Message w (MessageText update) = Some info ->
  protectedName w (UserName info) = true ->
  forallb (fun entry => negb (isSend (fst entry))) (snd (run (MsgHandler w a update))) = true
  /\ fst (run (MsgHandler w a update))
     = Returned (Some (ErrSuperUser (UserName info) (UserID info))).
Proof.
  intros Hfw Hfound Hp.
  rewrite (@MsgHandler_protected w a update info Hfw Hfound Hp). split; reflexivity.
Qed.

Lemma MsgHandler_superuser_sends_nothing_witness :
  let w := sampleWorld "alice" (String.eqb "alice") nothingFails in
  forallb (fun entry => negb (isSend (fst entry)))
    (snd (run (MsgHandler w (sampleAdmin true false) sampleUpdate))) = true
  /\ fst (run (MsgHandler w (sampleAdmin true false) sampleUpdate))
     = Returned (Some (ErrSuperUser "alice" 7)).
Proof.
  cbv zeta.
  apply (@MsgHandler_superuser_sends_nothing
           (sampleWorld "alice" (String.eqb "alice") nothingFails)
           (sampleAdmin true false) sampleUpdate (sampleInfo "alice")); reflexivity.
Defined.

(** C7 as stated fails: in a run that stops on a super-user the log holds no
    send at all. *)
Lemma MsgHandler_superuser_send_counterexample :
  let w := sampleWorld "alice" (String.eqb "alice") nothingFails in
  let a := sampleAdmin false false in
  protectedName w (UserName (sampleInfo "alice")) = true
  /\ fst (run (MsgHandler w a sampleUpdate)) = Returned (Some (ErrSuperUser "alice" 7))
  /\ ~ (exists c r, isSend c = true /\ In (c, r) (snd (run (MsgHandler w a sampleUpdate)))).
Proof.
  cbv zeta. split; [reflexivity|]. split; [reflexivity|].
  intros (c & r & _ & H). vm_compute in H. exact H.
Qed.

(** ** Button presses *)

(** The ban requests handed to [banUserOrChannel] in a log. *)
Definition banCalls (l : Log) : list banRequest :=
  flat_map (fun entry => match fst entry with
                         | banUserOrChannel r => [r]
                         | _ => []
                         end) l.

(** The message deletions requested from the transport in a log. *)
Definition deleteCalls (l : Log) : list (Z * Z) :=
  flat_map (fun entry => match fst entry with
                         | TbAPI_Request (DeleteMessageConfig chat msg) => [(chat, msg)]
                         | _ => []
                         end) l.

Ltac unfold_handlers :=
  cbv beta iota zeta delta
    [run bind ret call callOnMessage liftOutcome panic
     InlineCallbackHandler callbackAskBanConfirmation callbackBanConfirmed
     callbackShowInfo callbackUnbanConfirmed deleteAndBan
     sendWithUnbanMarkup ReportBan MsgHandler];
  cbn [app fst snd].

Ltac simpl_run := cbn [app fst snd negb ErrorOrNil appendIf wrapIf].

(** Case analysis on the next reply of the world: the one whose history
    holds no reply that is still undetermined. *)
Ltac break_reply :=
  match goal with
  | |- context [reply ?w ?l ?c] =>
      lazymatch l with
      | context [reply _ _ _] => fail
      | _ => destruct (reply w l c) eqn:?
      end
  end.

Ltac break_match :=
  first
    [ break_reply
    | match goal with
      | |- context [match getCleanMessage ?t with _ => _ end] =>
          destruct (getCleanMessage t) as [[? [?|]]|] eqn:?
      | |- context [match parseCallbackData ?d with _ => _ end] =>
          destruct (parseCallbackData d) as [[? ?] [?|]] eqn:?
      | |- context [protectedName ?w ?n] => destruct (protectedName w n) eqn:?
      | |- context [match ?x with _ => _ end] =>
          lazymatch x with
          | context [match _ with _ => _ end] => fail
          | _ => destruct x eqn:?
          end
      end ].


(** What [deleteAndBan] does: the ban request, unless the user is a
    protected super-user, then the delete request in either case. *)
Lemma deleteAndBan_log (w : World) (a : admin) (query : CallbackQuery) (userID msgID : Z) :
  exists rBan rDelete,
    snd (run (deleteAndBan w a query userID msgID))
    = ((if protectedName w (Locator_UserNameByID w userID) then []
        else [(banUserOrChannel (banRequestOf w a userID false), rBan)])
       ++ [(TbAPI_Request (DeleteMessageConfig (primChatID a) msgID), rDelete)])%list.
Proof.
  unfold_handlers.
  destruct (protectedName w (Locator_UserNameByID w userID)); cbn [negb app].
  - exists None. repeat (break_match; simpl_run); eexists; reflexivity.
  - repeat (break_match; simpl_run); do 2 eexists; reflexivity.
Qed.

(** The edit [callbackBanConfirmed] starts with: the text with the
    confirmation note appended and an empty keyboard. *)
Definition confirmEdit (w : World) (query : CallbackQuery) : Call :=
  send (EditMessageTextConfig (Message_ChatID query) (Message_MessageID query)
          (banConfirmedText w query) EmptyString (Some [])).

(** Modelled from the spec: [banUserOrChannel], the Ban Executor of section
    4.4, is defined outside admin.go.  With [dry] set it issues no transport
    call and reports success, with [training] set it suppresses the ban;
    this is whether it issues the ban for a request. *)
Definition banExecutorIssues (r : banRequest) : bool := negb (dry r) && negb (training r).

(** C5, as amended.  A ConfirmBan press in training mode, once the edit, the
    body extraction, the sample update and the payload parse have succeeded,
    goes on to the real delete and ban: the delete of the original message
    is requested in either case, and, unless the user's looked-up name is a
    protected super-user, the ban request is handed over with its training
    flag false and the dry flag of the admin, so that the training mode no
    longer suppresses the ban (the executor of the spec issues it exactly
    when dry is off). *)
Theorem callbackBanConfirmed_training_bans
  (w : World) (a : admin) (query : CallbackQuery) (cleanMsg : string) (uid mid : Z) :
  trainingMode a = true ->
  reply w [] (confirmEdit w query) = None ->
  getCleanMessage (Message_Text query) = Returned (cleanMsg, None) ->
  reply w [(confirmEdit w query, None)] (Bot_UpdateSpam cleanMsg) = None ->
  parseCallbackData (Data query) = (uid, mid, None) ->
  let banReq := {| duration := PermanentBanDuration w;
                   userID := uid;
                   chatID := primChatID a;
                   dry := admin_dry a;
                   training := false |} in
  (exists rBan rDelete,
     snd (run (callbackBanConfirmed w a query))
     = ([(confirmEdit w query, None); (Bot_UpdateSpam cleanMsg, None)]
        ++ (if protectedName w (Locator_UserNameByID w uid) then []
            else [(banUserOrChannel banReq, rBan)])
        ++ [(TbAPI_Request (DeleteMessageConfig (primChatID a) mid), rDelete)])%list)
  /\ banExecutorIssues banReq = negb (admin_dry a).
Proof.
  intros Ht Hedit Hclean Hspam Hparse banReq. split.
  - unfold confirmEdit in *. unfold_handlers.
    rewrite Hedit, Hclean. cbn [app]. rewrite Hspam, Hparse, Ht. cbn [app].
    destruct (protectedName w (Locator_UserNameByID w uid)); cbn [negb app].
    + exists None. repeat (break_match; simpl_run); eexists; reflexivity.
    + repeat (break_match; simpl_run); do 2 eexists; reflexivity.
  - unfold banExecutorIssues, banReq. cbn. now rewrite andb_true_r.
Qed.

Definition sampleQuery (data text : string) : CallbackQuery :=
  {| QueryID := "q1";
     Data := data;
     From_UserName := "admin";
     Message_Text := text;
     Message_ChatID := 2;
     Message_MessageID := 55;
     Message_Date := 0;
     Message_ReplyMarkup := None |}.

Definition sampleAdminText : string :=
  adminLines ["permanently banned {7 bob Bob B}"; EmptyString; "buy cheap meds"].

Lemma callbackBanConfirmed_training_bans_witness :
  let w := sampleWorld "bob" nobodyIsSuper nothingFails in
  let a := sampleAdmin true false in
  let query := sampleQuery "+7:100" sampleAdminText in
  let banReq := {| duration := 34560000; userID := 7; chatID := 1;
                   dry := false; training := false |} in
  (exists rBan rDelete,
     snd (run (callbackBanConfirmed w a query))
     = [ (confirmEdit w query, None);
         (Bot_UpdateSpam "buy cheap meds", None);
         (banUserOrChannel banReq, rBan);
         (TbAPI_Request (DeleteMessageConfig 1 100), rDelete) ])
  /\ banExecutorIssues banReq = true.
Proof.
  cbv zeta.
  apply (@callbackBanConfirmed_training_bans
           (sampleWorld "bob" nobodyIsSuper nothingFails) (sampleAdmin true false)
           (sampleQuery "+7:100" sampleAdminText) "buy cheap meds" 7 100); reflexivity.
Defined.

(** The edit of the admin message fails, every other call succeeds. *)
Definition editFails (c : Call) : bool :=
  match c with
  | send _ => true
  | _ => false
  end.

(** C5 as stated fails.  In training mode, on the press [+7:100] with every
    call succeeding, a user whose name is on the super-user list is not
    banned: the handler returns nil and the log holds the delete only.  When
    the edit fails the handler stops there, with neither delete nor ban.
    With dry set the request that is handed over carries dry, and the
    executor of the spec issues no ban for it. *)
Lemma callbackBanConfirmed_training_counterexample :
  let query := sampleQuery "+7:100" sampleAdminText in
  let super := sampleWorld "alice" (String.eqb "alice") nothingFails in
  let noEdit := sampleWorld "bob" nobodyIsSuper editFails in
  let plain := sampleWorld "bob" nobodyIsSuper nothingFails in
  dispatch (Data query) = ConfirmBan
  /\ trainingMode (sampleAdmin true false) = true
  /\ run (callbackBanConfirmed super (sampleAdmin true false) query)
     = (Returned None,
        [ (confirmEdit super query, None);
          (Bot_UpdateSpam "buy cheap meds", None);
          (TbAPI_Request (DeleteMessageConfig 1 100), None) ])
  /\ run (callbackBanConfirmed noEdit (sampleAdmin true false) query)
     = (Returned (Some (ErrWrap "failed to clear confirmation" (ErrExternal "unavailable"))),
        [ (confirmEdit noEdit query, Some (ErrExternal "unavailable")) ])
  /\ (forall r, In r (banCalls (snd (run (callbackBanConfirmed plain (sampleAdmin true true)
                                           query)))) ->
                dry r = true /\ banExecutorIssues r = false)
  /\ banCalls (snd (run (callbackBanConfirmed plain (sampleAdmin true true) query))) <> [].
Proof.
  cbv zeta. split; [reflexivity|]. split; [reflexivity|].
  split; [reflexivity|]. split; [reflexivity|]. split.
  - intros r Hr. vm_compute in Hr. destruct Hr as [<-|[]]. split; reflexivity.
  - vm_compute. discriminate.
Qed.

(** Outside training mode the same press stops after the sample update: the
    ban was made when the message was detected. *)
Lemma callbackBanConfirmed_not_training
  (w : World) (a : admin) (query : CallbackQuery) :
  trainingMode a = false ->
  banCalls (snd (run (callbackBanConfirmed w a query))) = []
  /\ deleteCalls (snd (run (callbackBanConfirmed w a query))) = [].
Proof.
  intros Ht. unfold_handlers. rewrite Ht.
  repeat (break_match; simpl_run); split; reflexivity.
Qed.



(** ** Dry mode *)





(** ** Super-users are never banned *)

(** C9.  No operation hands [banUserOrChannel] a request for a user whose
    looked-up username is not empty and on the super-user list.
    [MsgHandler] bans only the correlated user, and only when that user's
    name is not protected; on a protected name it stops before any call.
    [deleteAndBan] skips the ban for a protected name and still requests the
    delete of the original message.  Every ban issued from a button press is
    for a user whose name by id is not protected, and [ReportBan] issues no
    ban at all. *)
Theorem superuser_never_banned (w : World) (a : admin) :
  (forall update,
      Forall (fun r => exists info,
                  Locator_Message w (MessageText update) = Some info
                  /\ userID r = UserID info
                  /\ protectedName w (UserName info) = false)
        (banCalls (snd (run (MsgHandler w a update)))))
  /\ (forall update info,
         isForwarded update = true ->
         Locator_Message w (MessageText update) = Some info ->
         protectedName w (UserName info) = true ->
         snd (run (MsgHandler w a update)) = [])
  /\ (forall query uid mid,
         protectedName w (Locator_UserNameByID w uid) = true ->
         exists rDelete,
           snd (run (deleteAndBan w a query uid mid))
           = [(TbAPI_Request (DeleteMessageConfig (primChatID a) mid), rDelete)])
  /\ (forall query,
         Forall (fun r => protectedName w (Locator_UserNameByID w (userID r)) = false)
           (banCalls (snd (run (InlineCallbackHandler w a query)))))
  /\ (forall banUserStr msg,
         banCalls (snd (run (ReportBan w a banUserStr msg))) = []).
Proof.
  split; [|split; [|split; [|split]]].
  - intros update. unfold_handlers.
    repeat (break_match; simpl_run);
      cbn [banCalls flat_map fst app];
      first [ apply Forall_nil | apply Forall_cons; [|apply Forall_nil] ];
      eexists; (split; [reflexivity|]); (split; [reflexivity|assumption]).
  - intros update info Hfw Hfound Hp.
    now rewrite (@MsgHandler_protected w a update info Hfw Hfound Hp).
  - intros query uid mid Hp.
    destruct (deleteAndBan_log w a query uid mid) as (rBan & rDelete & E).
    rewrite Hp in E. exists rDelete. exact E.
  - intros query. unfold_handlers.
    repeat (break_match; simpl_run);
      cbn [banCalls flat_map fst app];
      first [ apply Forall_nil | apply Forall_cons; [|apply Forall_nil] ];
      cbn [userID]; assumption.
  - intros banUserStr msg. unfold_handlers.
    repeat (break_match; simpl_run); reflexivity.
Qed.

Lemma superuser_never_banned_witness :
  let w := sampleWorld "alice" (String.eqb "alice") nothingFails in
  let a := sampleAdmin true false in
  snd (run (MsgHandler w a sampleUpdate)) = []
  /\ exists rDelete,
       snd (run (deleteAndBan w a (sampleQuery "+7:100" sampleAdminText) 7 100))
       = [(TbAPI_Request (DeleteMessageConfig 1 100), rDelete)].
Proof.
  cbv zeta. split.
  - apply (proj1 (proj2 (@superuser_never_banned
                           (sampleWorld "alice" (String.eqb "alice") nothingFails)
                           (sampleAdmin true false)))
             sampleUpdate (sampleInfo "alice")); reflexivity.
  - apply (proj1 (proj2 (proj2 (@superuser_never_banned
                                  (sampleWorld "alice" (String.eqb "alice") nothingFails)
                                  (sampleAdmin true false))))
             (sampleQuery "+7:100" sampleAdminText) 7 100); reflexivity.
Defined.

(** ** Where the payloads come from

    [encode] is the wire format in the spec's words; these are the payloads
    the code puts on the buttons. *)

Lemma sendWithUnbanMarkup_payloads (w : World) (text action : string) (uid mid chat : Z) :
  map fst (snd (run (sendWithUnbanMarkup w text action uid mid chat)))
  = [ TbAPI_Send
        (MessageConfig chat text ModeMarkdown true
           (Some [[ {| ButtonText := "⛔︎ " ++ action;
                       CallbackData := encode AskConfirm uid mid |};
                    {| ButtonText := "️⚑ info";
                       CallbackData := encode ShowInfo uid mid |} ]])) ].
Proof. reflexivity. Qed.

Lemma callbackAskBanConfirmation_payloads
  (w : World) (a : admin) (query : CallbackQuery) (uid mid : Z) :
  Data query = encode AskConfirm uid mid ->
  map fst (snd (run (callbackAskBanConfirmation w a query)))
  = [ send (EditMessageReplyMarkupConfig (Message_ChatID query) (Message_MessageID query)
              [[ {| ButtonText := "Unban for real";
                    CallbackData := encode Unban uid mid |};
                 {| ButtonText := if trainingMode a then "Confirm ban" else "Keep it banned";
                    CallbackData := encode ConfirmBan uid mid |} ]]) ].
Proof.
  intros E. unfold callbackAskBanConfirmation. rewrite E. reflexivity.
Qed.

(** ** The remaining examples of the spec *)

Example getCleanMessage_body_only :
  getCleanMessage (adminLines ["header"; EmptyString; "body only"]) = Returned ("body only", None).
Proof. reflexivity. Qed.

(** A marker on one of the first three lines makes the slice bounds
    inverted, and the Go code panics. *)
Example getCleanMessage_marker_too_early :
  getCleanMessage (adminLines ["header"; EmptyString; "spam detection results"]) = Panicked.
Proof. reflexivity. Qed.

Example extractUsername_markdown :
  extractUsername "banned [Alice](tg://user?id=42) now" = ("Alice", None).
Proof. reflexivity. Qed.

Example extractUsername_plain :
  extractUsername "banned {42 alice Alice A} now" = ("alice", None).
Proof. reflexivity. Qed.

Example extractUsername_neither :
  extractUsername "nothing to see" = (EmptyString, Some (ErrNew "username not found")).
Proof. reflexivity. Qed.

(** The end-to-end example: removal, notification, sample update, delete and
    permanent ban, in that order, all succeeding. *)
Example MsgHandler_end_to_end :
  let w := sampleWorld "bob" nobodyIsSuper nothingFails in
  let a := sampleAdmin false false in
  run (MsgHandler w a sampleUpdate)
  = (Returned None,
     [ (Bot_RemoveApprovedUser 7, None);
       (Bot_OnMessage "buy cheap meds" 7, None);
       (send (notification w a sampleUpdate (sampleInfo "bob")), None);
       (Bot_UpdateSpam "buy cheap meds", None);
       (TbAPI_Request (DeleteMessageConfig 1 100), None);
       (banUserOrChannel (banRequestOf w a 7 false), None) ]).
Proof. reflexivity. Qed.

(** * Further properties of the admin helper *)

(** ** The text extractor at its edges *)

Section ExtractorEdges.

Import GoStrings.
Local Open Scope list_scope.

Lemma firstMarker_bounds (l : list string) (i0 i : Z) :
  firstMarker i0 l = Some i -> i0 <= i < i0 + Z.of_nat (List.length l).
Proof.
  revert i0. induction l as [|x l IH]; intros i0 H; [discriminate|].
  cbn [firstMarker] in H. cbn [List.length].
  destruct (HasPrefix x spamMarker).
  - injection H as <-. lia.
  - apply IH in H. lia.
Qed.

(** One of the first three lines starts with the marker. *)
Definition markedEarly (msgLines : list string) : bool :=
  existsb (fun line => HasPrefix line spamMarker) (firstn 3 msgLines).

Lemma firstMarker_early (l : list string) :
  markedEarly l = true <-> exists i, firstMarker 0 l = Some i /\ i <= 2.
Proof.
  unfold markedEarly.
  destruct l as [|x [|y [|z rest]]]; cbn [firstn existsb firstMarker];
    repeat match goal with
           | |- context [HasPrefix ?s spamMarker] => destruct (HasPrefix s spamMarker)
           end;
    cbn [orb Z.add];
    try (split; [intros _; eexists; split; [reflexivity|lia] | reflexivity]);
    try (split; [discriminate | intros (i & H & _); discriminate]).
  split; [discriminate|]. intros (i & H & Hi).
  apply firstMarker_bounds in H. lia.
Qed.

(** X1.  The error result is for a text without any newline, and only for it. *)
Theorem getCleanMessage_error_iff (msg : string) :
  (exists s e, getCleanMessage msg = Returned (s, Some e))
  <-> Count newline msg = 0%nat.
Proof.
  unfold getCleanMessage. rewrite Split_length.
  destruct (Z.ltb_spec (Z.of_nat (S (Count newline msg))) 2) as [Hlt|Hge].
  - split; [lia|]. intros _. do 2 eexists. reflexivity.
  - split; [|lia]. intros (s & e & H).
    destruct (slice _ _ _); discriminate.
Qed.

(** X2.  The slice bounds are inverted, and the call panics, exactly when the text
    has at least two lines and one of its first three lines starts with the
    marker. *)
Theorem getCleanMessage_panics_iff (msg : string) :
  getCleanMessage msg = Panicked
  <-> (1 <= Count newline msg)%nat /\ markedEarly (Split newline msg) = true.
Proof.
  unfold getCleanMessage.
  pose proof (Split_length newline msg) as HL.
  destruct (Z.ltb_spec (Z.of_nat (List.length (Split newline msg))) 2) as [Hlt|Hge].
  - split; [discriminate|]. lia.
  - rewrite firstMarker_early.
    destruct (firstMarker 0 (Split newline msg)) as [i|] eqn:E.
    + pose proof (firstMarker_bounds _ _ E) as Hb. unfold slice.
      replace (0 <=? 2) with true by reflexivity. cbn [andb].
      destruct (Z.leb_spec 2 (i - 1)) as [H2|H2]; cbn [andb].
      * destruct (Z.leb_spec (i - 1) (Z.of_nat (List.length (Split newline msg))));
          [|lia].
        split; [discriminate|]. intros (_ & j & Hj & Hle). injection Hj as <-. lia.
      * split; [|reflexivity]. intros _. split; [lia|]. exists i. split; [reflexivity|lia].
    + unfold slice. replace (0 <=? 2) with true by reflexivity.
      destruct (Z.leb_spec 2 (Z.of_nat (List.length (Split newline msg)))); [|lia].
      rewrite Z.leb_refl. cbn [andb].
      split; [discriminate|]. intros (_ & j & Hj & _). discriminate.
Qed.

(** X3.  Without a marker line the body is everything after the second line:
    for two header lines and any further lines, none of them marked, the
    result is the further lines joined by newlines (the empty text when
    there are none). *)
Theorem getCleanMessage_runs_to_end (h1 h2 : string) (body : list string) :
  forallb (free newline) (h1 :: h2 :: body) = true ->
  forallb unmarked (h1 :: h2 :: body) = true ->
  getCleanMessage (adminLines (h1 :: h2 :: body)) = Returned (adminLines body, None).
Proof. intros Hfree Hun. now apply getCleanMessage_without_marker. Qed.

Lemma getCleanMessage_runs_to_end_witness :
  getCleanMessage (adminLines ["header"; EmptyString; "first"; "second"])
  = Returned (adminLines ["first"; "second"], None).
Proof.
  apply (@getCleanMessage_runs_to_end "header" EmptyString ["first"; "second"]);
    reflexivity.
Defined.

End ExtractorEdges.

(** ** The codec over the whole range of the ids

    Telegram ids of channels are negative; the payload format carries them
    as well. *)

Section CodecFullRange.

Import GoStrings Strconv.

Definition inInt64 (n : Z) : Prop := - 2 ^ 63 <= n < 2 ^ 63.

Lemma ParseInt_FormatInt_signed (n : Z) :
  inInt64 n -> ParseInt 64 (FormatInt n) = Some n.
Proof.
  unfold inInt64. intros Hn.
  destruct (Z.ltb_spec n 0) as [Hneg|Hpos].
  - unfold FormatInt. destruct (Z.ltb_spec n 0) as [_|?]; [|lia].
    destruct (@digits_spec (- n)) as (Hp & _ & Hne); [lia|].
    unfold ParseInt. cbn [Ascii.eqb Bool.eqb].
    unfold parse_unsigned. destruct (digits (- n)) as [|c s] eqn:E; [contradiction|].
    rewrite Hp. change (2 ^ (64 - 1)) with (2 ^ 63).
    destruct (Z.leb_spec (- n) (2 ^ 63)); [|lia].
    f_equal. lia.
  - apply ParseInt_FormatInt. change (64 - 1) with 63. lia.
Qed.

Definition isIdByte (c : ascii) : bool := is_digit c || Ascii.eqb c "-"%char.

Lemma FormatInt_bytes (n : Z) :
  exists c s, FormatInt n = String c s /\ all_bytes isIdByte (FormatInt n) = true.
Proof.
  assert (Hd : forall s, all_bytes is_digit s = true -> all_bytes isIdByte s = true).
  { induction s as [|c s IH]; cbn [all_bytes]; [reflexivity|].
    intros H. apply andb_prop in H as [Hc Hs]. unfold isIdByte at 1.
    now rewrite Hc, IH. }
  unfold FormatInt. destruct (Z.ltb_spec n 0) as [Hneg|Hpos].
  - destruct (@digits_spec (- n)) as (_ & Ha & _); [lia|].
    do 2 eexists. split; [reflexivity|]. cbn [all_bytes]. now rewrite Hd.
  - destruct (digits_spec Hpos) as (_ & Ha & Hne).
    destruct (digits n) as [|c s] eqn:E; [contradiction|].
    do 2 eexists. split; [reflexivity|]. now apply Hd.
Qed.

Lemma isIdByte_not_special (c : ascii) :
  isIdByte c = true ->
  Ascii.eqb c "?"%char = false /\ Ascii.eqb c "+"%char = false
  /\ Ascii.eqb c "!"%char = false /\ Ascii.eqb c ":"%char = false.
Proof.
  unfold isIdByte. intros H. apply orb_prop in H as [H|H].
  - destruct (digit_not_special _ H) as (? & ? & ? & _ & ?). tauto.
  - apply Ascii.eqb_eq in H. subst c. repeat split; reflexivity.
Qed.

Lemma idBytes_free_of_colon (s : string) :
  all_bytes isIdByte s = true -> free colon s = true.
Proof.
  unfold free, colon.
  induction s as [|c s IH]; cbn [all_bytes]; [reflexivity|].
  intros H. apply andb_prop in H as [Hc Hs].
  destruct (isIdByte_not_special _ Hc) as (_ & _ & _ & Hcol).
  rewrite Hcol. cbn [negb andb]. now apply IH.
Qed.

Lemma codec_roundtrip_int64 (act : Action) (uid mid : Z) :
  inInt64 uid -> inInt64 mid ->
  decode (encode act uid mid) = Some (act, uid, mid).
Proof.
  intros Hu Hm.
  destruct (FormatInt_bytes uid) as (cu & su & Eu & Hau).
  destruct (FormatInt_bytes mid) as (cm & sm & Em & Ham).
  assert (Hsplit : Split colon (idsText uid mid) = [FormatInt uid; FormatInt mid]).
  { unfold idsText.
    rewrite Split_app by now apply idBytes_free_of_colon.
    rewrite Split_free by now apply idBytes_free_of_colon. reflexivity. }
  assert (Hlen : (3 <= String.length (idsText uid mid))%nat).
  { unfold idsText. rewrite Eu, Em. cbn [append String.length]. clear.
    induction su as [|x su IH]; cbn [append String.length]; lia. }
  assert (Hhead : stripActionPrefix (idsText uid mid) = idsText uid mid
                  /\ dispatch (idsText uid mid) = Unban).
  { unfold idsText. rewrite Eu in *. cbn [all_bytes] in Hau.
    apply andb_prop in Hau as [Hc _].
    destruct (isIdByte_not_special _ Hc) as (Hq & Hp & Hb & _).
    unfold stripActionPrefix, dispatch, confirmationPrefix, banPrefix, infoPrefix.
    simpl. rewrite Hq, Hp, Hb. split; reflexivity. }
  destruct Hhead as [Hstrip Hdisp].
  assert (Hparse : forall data,
             (3 <= String.length data)%nat ->
             stripActionPrefix data = idsText uid mid ->
             parseCallbackData data = (uid, mid, None)).
  { intros data Hl Hs. unfold parseCallbackData, len.
    destruct (Z.ltb_spec (Z.of_nat (String.length data)) 3); [lia|].
    rewrite Hs, Hsplit. simpl. unfold Atoi, intSize.
    now rewrite !ParseInt_FormatInt_signed. }
  rewrite encode_unfold. unfold decode.
  destruct act; simpl prefixOf.
  - rewrite Hparse by (simpl; auto; lia). reflexivity.
  - rewrite Hparse by (simpl; auto; lia). reflexivity.
  - rewrite Hparse by (simpl; auto; lia). reflexivity.
  - simpl append. rewrite Hparse by auto. now rewrite Hdisp.
Qed.

(** X6.  The round trip of the codec for every action and all ids of the Go
    types, negative ones included: decoding [<prefix><userID>:<msgID>] gives
    back the action and both ids. *)
Theorem decode_encode_roundtrip_signed (act : Action) (uid mid : Z) :
  inInt64 uid -> inInt64 mid ->
  decode (encode act uid mid) = Some (act, uid, mid).
Proof. intros Hu Hm. now apply codec_roundtrip_int64. Qed.

Lemma decode_encode_roundtrip_signed_witness :
  decode (encode Unban (-1001234567890) 42) = Some (Unban, -1001234567890, 42).
Proof. apply decode_encode_roundtrip_signed; unfold inInt64; lia. Defined.

Lemma decode_success_bytes_witness :
  (3 <= String.length "+7:100")%nat /\ all_bytes isPayloadByte "+7:100" = true.
Proof. apply (@decode_success_bytes "+7:100" ConfirmBan 7 100). reflexivity. Defined.

End CodecFullRange.

(** ** From the report to the confirmation keyboard *)

Section Buttons.

Import GoStrings Strconv.

(** The text [ReportBan] sends. *)
Definition reportText (w : World) (banUserStr : string) (msg : BotMessage) : string :=
  "**permanently banned [" ++ banUserStr ++ "](tg://user?id="
    ++ FormatInt (BotMessage_FromID msg) ++ ")**" ++ nl ++ nl
    ++ newlinesToSpaces (escapeMarkDownV1Text w (BotMessage_Text msg)) ++ nl ++ nl.

(** X7.  [ReportBan] makes one call, a message to the admin chat with one row of
    two buttons; for ids of the Go types the first button decodes to a
    confirmation request and the second to an info request, both for the
    reported user and message. *)
Theorem ReportBan_buttons_decode (w : World) (a : admin) (banUserStr : string) (msg : BotMessage) :
  inInt64 (BotMessage_FromID msg) -> inInt64 (BotMessage_ID msg) ->
  exists r ask info,
    run (ReportBan w a banUserStr msg)
    = (Returned tt,
       [ (TbAPI_Send (MessageConfig (adminChatID a) (reportText w banUserStr msg)
                        ModeMarkdown true (Some [[ask; info]])), r) ])
    /\ decode (CallbackData ask) = Some (AskConfirm, BotMessage_FromID msg, BotMessage_ID msg)
    /\ decode (CallbackData info) = Some (ShowInfo, BotMessage_FromID msg, BotMessage_ID msg).
Proof.
  intros Hu Hm. do 3 eexists. split; [reflexivity|].
  cbn [CallbackData]. split.
  - apply (@codec_roundtrip_int64 AskConfirm); assumption.
  - apply (@codec_roundtrip_int64 ShowInfo); assumption.
Qed.

Lemma ReportBan_buttons_decode_witness :
  let w := sampleWorld "bob" nobodyIsSuper nothingFails in
  let msg := {| BotMessage_Text := "buy cheap meds"; BotMessage_FromID := 7;
                BotMessage_ID := 100 |} in
  exists r ask info,
    run (ReportBan w (sampleAdmin false false) "bob" msg)
    = (Returned tt,
       [ (TbAPI_Send (MessageConfig 2 (reportText w "bob" msg)
                        ModeMarkdown true (Some [[ask; info]])), r) ])
    /\ decode (CallbackData ask) = Some (AskConfirm, 7, 100)
    /\ decode (CallbackData info) = Some (ShowInfo, 7, 100).
Proof.
  cbv zeta.
  apply (@ReportBan_buttons_decode (sampleWorld "bob" nobodyIsSuper nothingFails)
           (sampleAdmin false false) "bob"
           {| BotMessage_Text := "buy cheap meds"; BotMessage_FromID := 7;
              BotMessage_ID := 100 |}); unfold inInt64; cbn; lia.
Defined.

Lemma append_length (s t : string) :
  String.length (s ++ t) = (String.length s + String.length t)%nat.
Proof. induction s as [|c s IH]; cbn; [reflexivity|now rewrite IH]. Qed.

Lemma ParseInt_nonempty (bits : Z) (s : string) (v : Z) :
  ParseInt bits s = Some v -> (1 <= String.length s)%nat.
Proof. destruct s; [discriminate|]. cbn. lia. Qed.

(** What [parseCallbackData] has accepted: the stripped payload splits in
    two halves that parse to the ids. *)
Lemma parseCallbackData_ok (data : string) (u m : Z) :
  parseCallbackData data = (u, m, None) ->
  exists p0 p1,
    Split colon (stripActionPrefix data) = [p0; p1]
    /\ ParseInt 64 p0 = Some u /\ Atoi p1 = Some m.
Proof.
  unfold parseCallbackData.
  destruct (len data <? 3); [discriminate|].
  destruct (Split colon (stripActionPrefix data)) as [|p0 [|p1 [|p2 t]]];
    cbn [List.length Nat.eqb negb nth]; try discriminate.
  destruct (ParseInt 64 p0) as [u'|] eqn:E0; [|discriminate].
  destruct (Atoi p1) as [m'|] eqn:E1; [|discriminate].
  intros H. injection H as <- <-. now exists p0, p1.
Qed.

Lemma parseCallbackData_of_halves (data p0 p1 : string) (u m : Z) :
  (3 <= String.length data)%nat ->
  Split colon (stripActionPrefix data) = [p0; p1] ->
  ParseInt 64 p0 = Some u -> Atoi p1 = Some m ->
  parseCallbackData data = (u, m, None).
Proof.
  intros Hlen Hs H0 H1. unfold parseCallbackData, len.
  destruct (Z.ltb_spec (Z.of_nat (String.length data)) 3); [lia|].
  rewrite Hs. cbn [List.length Nat.eqb negb nth]. now rewrite H0, H1.
Qed.

Lemma no_prefix_byte (data : string) :
  (forall c s, data = String c s -> c <> "?"%char /\ c <> "+"%char /\ c <> "!"%char) ->
  dispatch data = Unban /\ stripActionPrefix data = data.
Proof.
  intros H. destruct data as [|c rest]; [split; reflexivity|].
  destruct (H c rest eq_refl) as (Hq & Hp & Hb).
  apply Ascii.eqb_neq in Hq, Hp, Hb.
  unfold dispatch, stripActionPrefix, confirmationPrefix, banPrefix, infoPrefix.
  simpl. rewrite Hq, Hp, Hb. split; reflexivity.
Qed.

(** X8.  A confirmation request whose ids parse, and whose body does not itself
    start with a prefix byte, is answered by an edit of the keyboard to two
    buttons: the first decodes to Unban and the second to ConfirmBan, with
    the very same ids. *)
Theorem callbackAskBanConfirmation_keeps_ids
  (w : World) (a : admin) (query : CallbackQuery) (rest : string) (u m : Z) :
  Data query = String "?"%char rest ->
  (forall c s, rest = String c s -> c <> "?"%char /\ c <> "+"%char /\ c <> "!"%char) ->
  parseCallbackData (Data query) = (u, m, None) ->
  exists r unban keep,
    run (callbackAskBanConfirmation w a query)
    = (Returned (wrapIf "failed to make confiramtion" r),
       [ (send (EditMessageReplyMarkupConfig (Message_ChatID query)
                  (Message_MessageID query) [[unban; keep]]), r) ])
    /\ decode (CallbackData unban) = Some (Unban, u, m)
    /\ decode (CallbackData keep) = Some (ConfirmBan, u, m).
Proof.
  intros Hdata Hrest Hparse.
  destruct (parseCallbackData_ok _ Hparse) as (p0 & p1 & Hs & H0 & H1).
  rewrite Hdata in Hs. change (stripActionPrefix (String "?"%char rest)) with rest in Hs.
  destruct (no_prefix_byte Hrest) as [Hdisp Hstrip].
  assert (Hlen : (3 <= String.length rest)%nat).
  { pose proof (Join_Split colon rest) as HJ. rewrite Hs in HJ. cbn [Join] in HJ.
    rewrite <- HJ, append_length. cbn [String.length].
    apply ParseInt_nonempty in H0. apply ParseInt_nonempty in H1. lia. }
  do 3 eexists. split; [|split].
  - unfold callbackAskBanConfirmation. rewrite Hdata. reflexivity.
  - cbn [CallbackData]. unfold decode.
    rewrite (@parseCallbackData_of_halves rest p0 p1 u m); try assumption.
    + now rewrite Hdisp.
    + now rewrite Hstrip.
  - cbn [CallbackData]. unfold decode.
    rewrite (@parseCallbackData_of_halves (banPrefix ++ rest) p0 p1 u m);
      try assumption; [reflexivity|cbn; lia].
Qed.

Lemma callbackAskBanConfirmation_keeps_ids_witness :
  let w := sampleWorld "bob" nobodyIsSuper nothingFails in
  let query := sampleQuery "?7:100" sampleAdminText in
  exists r unban keep,
    run (callbackAskBanConfirmation w (sampleAdmin true false) query)
    = (Returned (wrapIf "failed to make confiramtion" r),
       [ (send (EditMessageReplyMarkupConfig 2 55 [[unban; keep]]), r) ])
    /\ decode (CallbackData unban) = Some (Unban, 7, 100)
    /\ decode (CallbackData keep) = Some (ConfirmBan, 7, 100).
Proof.
  cbv zeta.
  apply (@callbackAskBanConfirmation_keeps_ids
           (sampleWorld "bob" nobodyIsSuper nothingFails) (sampleAdmin true false)
           (sampleQuery "?7:100" sampleAdminText) "7:100" 7 100).
  - reflexivity.
  - intros c s E. injection E as <- _. split; [|split]; discriminate.
  - reflexivity.
Defined.

(** Without the condition on the body the first button can change its
    meaning: for the payload [?+5:3] it carries [+5:3], a ConfirmBan. *)
Example callbackAskBanConfirmation_prefixed_body :
  parseCallbackData "?+5:3" = (5, 3, None)
  /\ decode "+5:3" = Some (ConfirmBan, 5, 3).
Proof. split; reflexivity. Qed.

End Buttons.

(** ** The forwarded report at its edges *)

(** X9.  A message that is not a forward is ignored, and a forward the locator
    does not know is refused with an error; in both cases no call is made. *)
Theorem MsgHandler_no_correlation_no_calls (w : World) (a : admin) (update : Update) :
  (isForwarded update = false -> run (MsgHandler w a update) = (Returned None, []))
  /\ (isForwarded update = true ->
      Locator_Message w (MessageText update) = None ->
      run (MsgHandler w a update)
      = (Returned (Some (ErrMsg "not found in locator" (shrink w (MessageText update) 50))),
         [])).
Proof.
  unfold isForwarded, MsgHandler. split.
  - intros H. apply negb_false_iff in H. now rewrite H.
  - intros H Hnone. apply negb_true_iff in H. now rewrite H, Hnone.
Qed.

Lemma MsgHandler_no_correlation_no_calls_witness :
  run (MsgHandler (sampleWorld "bob" nobodyIsSuper nothingFails) (sampleAdmin false false)
         {| ForwardSenderName := "bob"; ForwardFrom := None; MessageText := "hello" |})
  = (Returned (Some (ErrMsg "not found in locator" "hello")), []).
Proof.
  apply (proj2 (@MsgHandler_no_correlation_no_calls
                  (sampleWorld "bob" nobodyIsSuper nothingFails) (sampleAdmin false false)
                  {| ForwardSenderName := "bob"; ForwardFrom := None;
                     MessageText := "hello" |})); reflexivity.
Defined.

(** ** Delete and ban *)

(** X10.  The result of [deleteAndBan] in terms of the two replies: a failed delete
    is returned alone, whatever the ban did; with the delete done, a failed
    ban comes back as a plain error made of its message; otherwise nil. *)
Theorem deleteAndBan_result (w : World) (a : admin) (query : CallbackQuery) (uid mid : Z) :
  let ban := banUserOrChannel (banRequestOf w a uid false) in
  let delete := TbAPI_Request (DeleteMessageConfig (primChatID a) mid) in
  let protected := protectedName w (Locator_UserNameByID w uid) in
  let rBan := if protected then None else reply w [] ban in
  let banLog := if protected then [] else [(ban, rBan)] in
  let rDelete := reply w banLog delete in
  run (deleteAndBan w a query uid mid)
  = (Returned
       match rDelete with
       | Some e => Some (ErrWrap "failed to delete message" e)
       | None =>
           match rBan with
           | Some e => Some (ErrNew (Error_string w (ErrWrap "failed to ban user" e)))
           | None => None
           end
       end,
     (banLog ++ [(delete, rDelete)])%list).
Proof.
  cbv zeta. unfold_handlers. unfold banRequestOf.
  destruct (protectedName w (Locator_UserNameByID w uid)); cbn [negb app];
    repeat (break_match; simpl_run); reflexivity.
Qed.

(** Both steps failing: only the delete failure is reported. *)
Example deleteAndBan_delete_failure_hides_ban_failure :
  let w := sampleWorld "bob" nobodyIsSuper collectedStepsFail in
  run (deleteAndBan w (sampleAdmin true false) (sampleQuery "+7:100" sampleAdminText) 7 100)
  = (Returned (Some (ErrWrap "failed to delete message" (ErrExternal "unavailable"))),
     [ (banUserOrChannel (banRequestOf w (sampleAdmin true false) 7 false),
        Some (ErrExternal "unavailable"));
       (TbAPI_Request (DeleteMessageConfig 1 100), Some (ErrExternal "unavailable")) ]).
Proof. reflexivity. Qed.

(** ** Routing of a button press *)

(** The callback an action is handled by, and the message its error is
    wrapped in by [InlineCallbackHandler]. *)
Definition callbackOf (w : World) (a : admin) (act : Action) (query : CallbackQuery)
  : M (option error) :=
  match act with
  | AskConfirm => callbackAskBanConfirmation w a query
  | ConfirmBan => callbackBanConfirmed w a query
  | ShowInfo => callbackShowInfo w query
  | Unban => callbackUnbanConfirmed w a query
  end.

Definition handlerContext (act : Action) : string :=
  match act with
  | AskConfirm => "failed to make ban confirmation dialog"
  | ConfirmBan => "failed confirmation ban"
  | ShowInfo => "failed to show spam info"
  | Unban => "failed to unban user"
  end.

(** X11.  A press from a chat other than the admin chat is ignored without any
    call.  A press from the admin chat runs the callback of the action that
    [dispatch] reads off the payload (the action [decode] reports), and its
    error, if any, comes back wrapped. *)
Theorem InlineCallbackHandler_routes (w : World) (a : admin) (query : CallbackQuery) :
  (Message_ChatID query <> adminChatID a ->
   run (InlineCallbackHandler w a query) = (Returned None, []))
  /\ (Message_ChatID query = adminChatID a ->
      run (InlineCallbackHandler w a query)
      = match run (callbackOf w a (dispatch (Data query)) query) with
        | (Returned err, l) =>
            (Returned (wrapIf (handlerContext (dispatch (Data query))) err), l)
        | (Panicked, l) => (Panicked, l)
        end).
Proof.
  unfold InlineCallbackHandler, dispatch. split.
  - intros H. apply Z.eqb_neq in H. now rewrite H.
  - intros H. apply Z.eqb_eq in H. rewrite H. cbn [negb].
    destruct (GoStrings.HasPrefix (Data query) confirmationPrefix);
      [|destruct (GoStrings.HasPrefix (Data query) banPrefix);
        [|destruct (GoStrings.HasPrefix (Data query) infoPrefix)]];
      cbn [callbackOf handlerContext]; unfold run, bind, ret;
      match goal with
      | |- context [?m []] => destruct (m []) as [[err|] l]
      end; reflexivity.
Qed.

Lemma InlineCallbackHandler_routes_witness :
  run (InlineCallbackHandler (sampleWorld "bob" nobodyIsSuper nothingFails)
         (sampleAdmin false false)
         {| QueryID := "q1"; Data := "7:100"; From_UserName := "admin";
            Message_Text := sampleAdminText; Message_ChatID := 99;
            Message_MessageID := 55; Message_Date := 0; Message_ReplyMarkup := None |})
  = (Returned None, []).
Proof.
  apply (proj1 (@InlineCallbackHandler_routes
                  (sampleWorld "bob" nobodyIsSuper nothingFails) (sampleAdmin false false)
                  {| QueryID := "q1"; Data := "7:100"; From_UserName := "admin";
                     Message_Text := sampleAdminText; Message_ChatID := 99;
                     Message_MessageID := 55; Message_Date := 0;
                     Message_ReplyMarkup := None |})).
  cbn. lia.
Defined.

(** ** When a press panics *)

Lemma HasPrefix_nonempty (s p : string) :
  GoStrings.HasPrefix s p = true -> p <> EmptyString -> from1 s <> Panicked.
Proof.
  destruct p as [|b p]; [congruence|]. destruct s as [|c s]; [discriminate|].
  intros _ _. discriminate.
Qed.

(** The acknowledgement [callbackUnbanConfirmed] starts with. *)
Definition unbanAck (query : CallbackQuery) : Call :=
  TbAPI_Request (CallbackConfig (QueryID query) "accepted").

(** X12.  For a press that comes with its message, chat and sender (the
    record [CallbackQuery] holds no nil pointer), [InlineCallbackHandler]
    panics in exactly three cases, all of them in the admin chat: on a
    ConfirmBan press when the edit went through and [getCleanMessage] panics
    on the message text; on an Unban press when the acknowledgement went
    through, the payload parsed and [getCleanMessage] panics; on an info
    request when the first row of the keyboard is empty.  A confirmation
    request never panics, and neither does the slicing of the payload. *)
Theorem InlineCallbackHandler_panics_iff (w : World) (a : admin) (query : CallbackQuery) :
  fst (run (InlineCallbackHandler w a query)) = Panicked
  <-> Message_ChatID query = adminChatID a
      /\ ((dispatch (Data query) = ConfirmBan
           /\ reply w [] (confirmEdit w query) = None
           /\ getCleanMessage (Message_Text query) = Panicked)
          \/ (dispatch (Data query) = Unban
              /\ reply w [] (unbanAck query) = None
              /\ snd (parseCallbackData (Data query)) = None
              /\ getCleanMessage (Message_Text query) = Panicked)
          \/ (dispatch (Data query) = ShowInfo
              /\ exists rows, Message_ReplyMarkup query = Some ([] :: rows))).
Proof.
  unfold dispatch, confirmEdit, unbanAck. unfold_handlers.
  repeat (break_match; simpl_run); cbn [snd]; split.
  all: try match goal with
           | H : None = Some _ |- _ => discriminate H
           | H : Some _ = None |- _ => discriminate H
           end.
  all: try (intros H; discriminate H).
  all: try (intros H; clear H; exfalso;
           match goal with
           | Hp : GoStrings.HasPrefix ?s ?p = true, Hf : from1 ?s = Panicked |- _ =>
               exact (@HasPrefix_nonempty s p Hp ltac:(discriminate) Hf)
           end).
  all: try (intros H; clear H; split;
           [ match goal with
             | Hc : negb (_ =? _) = false |- _ =>
                 apply negb_false_iff in Hc; now apply Z.eqb_eq in Hc
             end
           | first
               [ left; split; [reflexivity|]; split; reflexivity
               | right; left; split; [reflexivity|]; split; [reflexivity|];
                 split; reflexivity
               | right; right; split; [reflexivity|];
                 match goal with
                 | Hrow : upto1 ?row = Panicked |- _ =>
                     destruct row; [eexists; reflexivity|discriminate Hrow]
                 end ] ]).
  all: try (intros (Hchat & Hcases);
       match goal with
            | Hc : negb (_ =? _) = true |- _ =>
                rewrite Hchat, Z.eqb_refl in Hc; discriminate Hc
            end).
  all: try (intros _; reflexivity).
  all: try (intros (Hchat & Hcases); exfalso;
       destruct Hcases as [(Hd & He & Hg)|[(Hd & He & Hp & Hg)|(Hd & rows & Hk)]];
       try discriminate;
       match goal with
       | Hrow : upto1 ?row = Returned _ |- _ =>
           injection Hk as -> _; discriminate Hrow
       end).
Qed.

(** A ConfirmBan press on a text whose first line starts with the marker. *)
Example InlineCallbackHandler_panics_on_early_marker :
  fst (run (InlineCallbackHandler (sampleWorld "bob" nobodyIsSuper nothingFails)
              (sampleAdmin false false)
              (sampleQuery "+7:100" (adminLines ["spam detection results"; "more"]))))
  = Panicked.
Proof. reflexivity. Qed.

(** ** What a press may change *)

(** The unban requests in a log: user and chat. *)
Definition unbanCalls (l : Log) : list (Z * Z) :=
  flat_map (fun entry => match fst entry with
                         | TbAPI_Request (UnbanChatMemberConfig user chat) => [(user, chat)]
                         | _ => []
                         end) l.

(** The texts handed to the sample store in a log, as spam and as ham. *)
Definition spamSamples (l : Log) : list string :=
  flat_map (fun entry => match fst entry with
                         | Bot_UpdateSpam text => [text]
                         | _ => []
                         end) l.

Definition hamSamples (l : Log) : list string :=
  flat_map (fun entry => match fst entry with
                         | Bot_UpdateHam text => [text]
                         | _ => []
                         end) l.

Ltac forall_singleton :=
  first [ apply Forall_nil | apply Forall_cons; [|apply Forall_nil] ].

(** X13.  An unban is requested from the transport only outside training mode, on
    an Unban press, for the user id parsed from the payload and in the
    primary chat; [MsgHandler] and [ReportBan] never request one. *)
Theorem unban_only_on_unban_press (w : World) (a : admin) :
  (forall query,
      Forall (fun uc => trainingMode a = false
                        /\ dispatch (Data query) = Unban
                        /\ snd uc = primChatID a
                        /\ exists mid, parseCallbackData (Data query) = (fst uc, mid, None))
        (unbanCalls (snd (run (InlineCallbackHandler w a query)))))
  /\ (forall update, unbanCalls (snd (run (MsgHandler w a update))) = [])
  /\ (forall banUserStr msg, unbanCalls (snd (run (ReportBan w a banUserStr msg))) = []).
Proof.
  split; [|split].
  - intros query. unfold dispatch. unfold_handlers.
    repeat (break_match; simpl_run);
      cbn [unbanCalls flat_map fst app]; forall_singleton;
      cbn [fst snd];
      (split; [now apply negb_true_iff|]);
      (split; [reflexivity|]); (split; [reflexivity|]); eexists; reflexivity.
  - intros update. unfold_handlers. repeat (break_match; simpl_run); reflexivity.
  - intros banUserStr msg. unfold_handlers. repeat (break_match; simpl_run); reflexivity.
Qed.

(** X14.  The samples a press feeds to the classifier are the clean body of the
    admin message and nothing else: as spam on a ConfirmBan press only, as
    ham on an Unban press only. *)
Theorem press_samples_are_clean_body (w : World) (a : admin) (query : CallbackQuery) :
  Forall (fun text => dispatch (Data query) = ConfirmBan
                      /\ getCleanMessage (Message_Text query) = Returned (text, None))
    (spamSamples (snd (run (InlineCallbackHandler w a query))))
  /\ Forall (fun text => dispatch (Data query) = Unban
                         /\ getCleanMessage (Message_Text query) = Returned (text, None))
       (hamSamples (snd (run (InlineCallbackHandler w a query)))).
Proof.
  unfold dispatch. unfold_handlers.
  repeat (break_match; simpl_run);
    cbn [spamSamples hamSamples flat_map fst app];
    (split; forall_singleton; split; reflexivity).
Qed.

(** An edit of the admin message sent through the package helper. *)
Definition isEdit (c : Call) : bool :=
  match c with
  | send (EditMessageTextConfig _ _ _ _ _) => true
  | send (EditMessageReplyMarkupConfig _ _ _) => true
  | _ => false
  end.

(** X15.  A confirmation request and an info request change nothing but the admin
    message: whatever the payload and the replies, the log of such a press
    holds at most one call, and that call is an edit. *)
Theorem ask_and_info_only_edit (w : World) (a : admin) (query : CallbackQuery) :
  dispatch (Data query) = AskConfirm \/ dispatch (Data query) = ShowInfo ->
  (List.length (snd (run (InlineCallbackHandler w a query))) <= 1)%nat
  /\ forallb (fun entry => isEdit (fst entry))
       (snd (run (InlineCallbackHandler w a query))) = true.
Proof.
  unfold dispatch. unfold_handlers.
  repeat (break_match; simpl_run);
    try (intros [H|H]; discriminate H);
    intros _; cbn [List.length forallb fst isEdit andb]; split; (lia || reflexivity).
Qed.

Lemma ask_and_info_only_edit_witness :
  let w := sampleWorld "bob" nobodyIsSuper nothingFails in
  let query := sampleQuery "!7:100" sampleAdminText in
  (List.length (snd (run (InlineCallbackHandler w (sampleAdmin false false) query))) <= 1)%nat
  /\ forallb (fun entry => isEdit (fst entry))
       (snd (run (InlineCallbackHandler w (sampleAdmin false false) query))) = true.
Proof.
  cbv zeta.
  apply (@ask_and_info_only_edit (sampleWorld "bob" nobodyIsSuper nothingFails)
           (sampleAdmin false false) (sampleQuery "!7:100" sampleAdminText)).
  right. reflexivity.
Defined.

(** ** The unban press, step by step *)

Lemma extractUsername_error_name (text name : string) (e : error) :
  extractUsername text = (name, Some e) -> name = EmptyString.
Proof.
  unfold extractUsername.
  destruct (Extract.findMarkdown text); [discriminate|].
  destruct (Extract.findPlain text); [discriminate|].
  now intros [= <- _].
Qed.



(** ** The info press *)

(** The texts of the message edits in a log. *)
Definition editTexts (l : Log) : list string :=
  flat_map (fun entry => match fst entry with
                         | send (EditMessageTextConfig _ _ text _ _) => [text]
                         | _ => []
                         end) l.

Definition infoPlaceholderText (query : CallbackQuery) : string :=
  Message_Text query ++ nl ++ nl ++ "**spam detection results**" ++ nl ++ cantGetSpamInfo.

(** On an error [parseCallbackData] returns zero ids. *)
Lemma parseCallbackData_error_zero (data : string) (u m : Z) (e : error) :
  parseCallbackData data = (u, m, Some e) -> u = 0 /\ m = 0.
Proof.
  unfold parseCallbackData.
  repeat match goal with
         | |- context [if ?b then _ else _] => destruct b
         | |- context [match ?x with _ => _ end] => destruct x
         end; intros [= <- <- _] || discriminate; split; reflexivity.
Qed.

(** X17.  Whenever the user id read from the payload is zero, which is the case of
    every payload that fails to parse, and whenever the locator has no record
    for the user, the info press shows the placeholder under the marker: the
    parse failure itself is never rendered. *)
Theorem callbackShowInfo_placeholder (w : World) (query : CallbackQuery) :
  (exists e, snd (parseCallbackData (Data query)) = Some e)
  \/ fst (fst (parseCallbackData (Data query))) = 0
  \/ Locator_Spam w (fst (fst (parseCallbackData (Data query)))) = None ->
  Forall (fun text => text = infoPlaceholderText query)
    (editTexts (snd (run (callbackShowInfo w query)))).
Proof.
  intros H.
  assert (H' : fst (fst (parseCallbackData (Data query))) = 0
               \/ (snd (parseCallbackData (Data query)) = None
                   /\ Locator_Spam w (fst (fst (parseCallbackData (Data query)))) = None)).
  { destruct (parseCallbackData (Data query)) as [[u m] [e|]] eqn:E; cbn [fst snd] in *.
    - left. now destruct (parseCallbackData_error_zero _ E).
    - destruct H as [[e H]|[H|H]]; [discriminate|now left|now right]. }
  clear H. revert H'. unfold infoPlaceholderText. unfold_handlers.
  destruct (parseCallbackData (Data query)) as [[u m] [e|]]; cbn [fst snd];
    (intros [->|[Hnone Hspam]]; [|try discriminate Hnone; try rewrite Hspam]);
    cbn [Z.eqb negb];
    repeat (break_match; simpl_run); cbn [editTexts flat_map fst app];
    forall_singleton;
    first [ reflexivity
          | match goal with
            | H : _ = true |- _ => cbn in H; discriminate H
            end ].
Qed.

Lemma callbackShowInfo_placeholder_witness :
  let w := sampleWorld "bob" nobodyIsSuper nothingFails in
  let query := sampleQuery "!oops" sampleAdminText in
  Forall (fun text => text = infoPlaceholderText query)
    (editTexts (snd (run (callbackShowInfo w query)))).
Proof.
  cbv zeta.
  apply (@callbackShowInfo_placeholder (sampleWorld "bob" nobodyIsSuper nothingFails)
           (sampleQuery "!oops" sampleAdminText)).
  left. eexists. reflexivity.
Defined.

(** X18.  With a non-empty payload, the info press edits the message once, in
    Markdown mode, and the keyboard it attaches is the one of the message
    with its first row cut down to its first button; a message without
    keyboard gets the empty one. *)
Theorem callbackShowInfo_keyboard
  (w : World) (query : CallbackQuery) (b : InlineKeyboardButton)
  (bs : list InlineKeyboardButton) (rows : InlineKeyboard) :
  Data query <> EmptyString ->
  (Message_ReplyMarkup query = Some ((b :: bs) :: rows) ->
   exists text r,
     snd (run (callbackShowInfo w query))
     = [ (send (EditMessageTextConfig (Message_ChatID query) (Message_MessageID query)
                 text ModeMarkdown (Some ([b] :: rows))), r) ]
     /\ fst (run (callbackShowInfo w query))
        = Returned (wrapIf "failed to send spam info" r))
  /\ (Message_ReplyMarkup query = None \/ Message_ReplyMarkup query = Some [] ->
      exists text r,
        snd (run (callbackShowInfo w query))
        = [ (send (EditMessageTextConfig (Message_ChatID query) (Message_MessageID query)
                    text ModeMarkdown (Some [])), r) ]
        /\ fst (run (callbackShowInfo w query))
           = Returned (wrapIf "failed to send spam info" r)).
Proof.
  intros Hdata.
  assert (Hfrom : exists rest, from1 (Data query) = Returned rest).
  { destruct (Data query); [contradiction|eexists; reflexivity]. }
  destruct Hfrom as [rest Hfrom].
  split.
  - intros Hkb. unfold_handlers. rewrite Hkb, Hfrom. cbn [upto1].
    repeat (break_match; simpl_run); do 2 eexists; split; reflexivity.
  - intros [Hkb|Hkb]; unfold_handlers; rewrite Hkb, Hfrom;
      repeat (break_match; simpl_run); do 2 eexists; split; reflexivity.
Qed.

Lemma callbackShowInfo_keyboard_witness :
  let w := sampleWorld "bob" nobodyIsSuper nothingFails in
  let ask := {| ButtonText := "change ban"; CallbackData := "?7:100" |} in
  let info := {| ButtonText := "info"; CallbackData := "!7:100" |} in
  let query := {| QueryID := "q1"; Data := "!7:100"; From_UserName := "admin";
                  Message_Text := sampleAdminText; Message_ChatID := 2;
                  Message_MessageID := 55; Message_Date := 0;
                  Message_ReplyMarkup := Some [[ask; info]] |} in
  exists text r,
    snd (run (callbackShowInfo w query))
    = [ (send (EditMessageTextConfig 2 55 text ModeMarkdown (Some [[ask]])), r) ]
    /\ fst (run (callbackShowInfo w query))
       = Returned (wrapIf "failed to send spam info" r).
Proof.
  cbv zeta.
  apply (proj1 (@callbackShowInfo_keyboard
                  (sampleWorld "bob" nobodyIsSuper nothingFails)
                  {| QueryID := "q1"; Data := "!7:100"; From_UserName := "admin";
                     Message_Text := sampleAdminText; Message_ChatID := 2;
                     Message_MessageID := 55; Message_Date := 0;
                     Message_ReplyMarkup :=
                       Some [[ {| ButtonText := "change ban"; CallbackData := "?7:100" |};
                               {| ButtonText := "info"; CallbackData := "!7:100" |} ]] |}
                  {| ButtonText := "change ban"; CallbackData := "?7:100" |}
                  [ {| ButtonText := "info"; CallbackData := "!7:100" |} ] []
                  ltac:(discriminate))).
  reflexivity.
Defined.

(** ** The username extractor *)

Section UsernameExtractor.

Import GoStrings Strconv.

Lemma findMarkdown_none (text : string) :
  Count "["%char text = 0%nat -> Extract.findMarkdown text = None.
Proof.
  induction text as [|c text IH]; [reflexivity|].
  cbn [Count Extract.findMarkdown].
  destruct (Ascii.eqb c "["%char); [discriminate|]. exact IH.
Qed.

Lemma findPlain_none (text : string) :
  Count "{"%char text = 0%nat -> Extract.findPlain text = None.
Proof.
  induction text as [|c text IH]; [reflexivity|].
  cbn [Count Extract.findPlain].
  destruct (Ascii.eqb c "{"%char); [discriminate|]. exact IH.
Qed.

(** X19.  A text with neither an opening bracket nor an opening brace holds no
    username: the extractor returns its error and the empty name. *)
Theorem extractUsername_needs_bracket_or_brace (text : string) :
  Count "["%char text = 0%nat -> Count "{"%char text = 0%nat ->
  extractUsername text = (EmptyString, Some (ErrNew "username not found")).
Proof.
  intros Hb Hc. unfold extractUsername.
  now rewrite findMarkdown_none, findPlain_none.
Qed.

Lemma extractUsername_needs_bracket_or_brace_witness :
  extractUsername "buy cheap meds" = (EmptyString, Some (ErrNew "username not found")).
Proof. apply extractUsername_needs_bracket_or_brace; reflexivity. Defined.

Lemma lazyName_free (s name : string) :
  Extract.lazyName s = Some name -> free newline name = true.
Proof.
  revert name. induction s as [|c s IH]; intros name.
  - cbn [Extract.lazyName]. destruct (Extract.markdownTail EmptyString); [|discriminate].
    now intros [= <-].
  - cbn [Extract.lazyName]. destruct (Extract.markdownTail (String c s)).
    + now intros [= <-].
    + destruct (Ascii.eqb c newline) eqn:Hc; [discriminate|].
      destruct (Extract.lazyName s) as [n|]; [|discriminate].
      intros [= <-]. unfold free in *. cbn [all_bytes]. rewrite Hc. cbn [negb andb].
      now apply IH.
Qed.

Lemma findMarkdown_free (text name : string) :
  Extract.findMarkdown text = Some name -> free newline name = true.
Proof.
  induction text as [|c text IH]; [discriminate|].
  cbn [Extract.findMarkdown].
  destruct (Ascii.eqb c "["%char).
  - destruct (Extract.lazyName text) as [n|] eqn:E.
    + intros [= <-]. eapply lazyName_free; eassumption.
    + exact IH.
  - exact IH.
Qed.

Definition noSpace (s : string) : bool := all_bytes (fun c => negb (Extract.isSpace c)) s.

Lemma spanNonSpace_noSpace (s : string) : noSpace (fst (Extract.spanNonSpace s)) = true.
Proof.
  induction s as [|c s IH]; [reflexivity|].
  cbn [Extract.spanNonSpace]. destruct (Extract.isSpace c) eqn:Hc; [reflexivity|].
  destruct (Extract.spanNonSpace s) as [run after]. cbn [fst] in *.
  unfold noSpace in *. cbn [all_bytes]. now rewrite Hc, IH.
Qed.

Lemma plainAfterBrace_name (s name : string) :
  Extract.plainAfterBrace s = Some name -> name <> EmptyString /\ noSpace name = true.
Proof.
  unfold Extract.plainAfterBrace.
  destruct (Extract.digitsThen " "%char s) as [afterID|]; [|discriminate].
  pose proof (spanNonSpace_noSpace afterID) as Hn.
  destruct (Extract.spanNonSpace afterID) as [n afterName]. cbn [fst] in Hn.
  destruct n as [|c n]; [discriminate|].
  destruct afterName as [|sp [|c1 rest]]; try discriminate.
  destruct (_ && _ && _); [|discriminate].
  intros [= <-]. split; [discriminate|assumption].
Qed.

Lemma findPlain_name (text name : string) :
  Extract.findPlain text = Some name -> name <> EmptyString /\ noSpace name = true.
Proof.
  induction text as [|c text IH]; [discriminate|].
  cbn [Extract.findPlain].
  destruct (Ascii.eqb c "{"%char).
  - destruct (Extract.plainAfterBrace text) as [n|] eqn:E.
    + intros [= <-]. eapply plainAfterBrace_name; eassumption.
    + exact IH.
  - exact IH.
Qed.

Lemma noSpace_free (s : string) : noSpace s = true -> free newline s = true.
Proof.
  unfold noSpace, free. induction s as [|c s IH]; cbn [all_bytes]; [reflexivity|].
  intros H. apply andb_prop in H as [Hc Hs]. rewrite (IH Hs), andb_true_r.
  destruct (Ascii.eqb_spec c newline) as [->|]; [discriminate Hc|reflexivity].
Qed.

(** X20.  An extracted name never holds a newline; a name taken from the plain
    record form is moreover not empty and free of white space. *)
Theorem extractUsername_name_shape (text name : string) :
  extractUsername text = (name, None) ->
  free newline name = true
  /\ (Extract.findMarkdown text = None -> name <> EmptyString /\ noSpace name = true).
Proof.
  unfold extractUsername.
  destruct (Extract.findMarkdown text) as [n|] eqn:Em.
  - intros [= <-]. split; [eapply findMarkdown_free; eassumption|discriminate].
  - destruct (Extract.findPlain text) as [n|] eqn:Ep; [|discriminate].
    intros [= <-]. destruct (findPlain_name _ Ep) as [Hne Hns].
    split; [now apply noSpace_free|]. intros _. now split.
Qed.

Lemma extractUsername_name_shape_witness :
  free newline "VladimirSokolov24" = true
  /\ (Extract.findMarkdown "permanently banned {6762723796 VladimirSokolov24 VS}" = None ->
      "VladimirSokolov24" <> EmptyString /\ noSpace "VladimirSokolov24" = true).
Proof.
  apply (@extractUsername_name_shape
           "permanently banned {6762723796 VladimirSokolov24 VS}" "VladimirSokolov24").
  reflexivity.
Defined.

End UsernameExtractor.

(** ** Reading back a report

    What the two extractors recover from the text exactly as [ReportBan]
    builds it. *)

Section ReadBack.

Import GoStrings Strconv.

Lemma skipDigits_app (ds rest : string) (c : ascii) :
  all_bytes is_digit ds = true -> is_digit c = false ->
  Extract.skipDigits (ds ++ String c rest) = String c rest.
Proof.
  intros Hds Hc. induction ds as [|d ds IH].
  - cbn [append Extract.skipDigits]. now rewrite Hc.
  - cbn [all_bytes] in Hds. apply andb_prop in Hds as [Hd Hds].
    cbn [append Extract.skipDigits]. rewrite Hd. now apply IH.
Qed.

Lemma markdownTail_link (n : Z) (rest : string) :
  0 <= n ->
  Extract.markdownTail ("](tg://user?id=" ++ FormatInt n ++ String ")"%char rest) = true.
Proof.
  intros Hn. unfold Extract.markdownTail.
  cbn [append Extract.stripPrefix Ascii.eqb Bool.eqb].
  unfold FormatInt. destruct (Z.ltb_spec n 0) as [?|_]; [lia|].
  destruct (digits_spec Hn) as (_ & Ha & Hne).
  destruct (digits n) as [|d ds]; [contradiction|].
  cbn [all_bytes] in Ha. apply andb_prop in Ha as [Hd Hds].
  unfold Extract.digitsThen. cbn [append]. rewrite Hd.
  rewrite skipDigits_app by (assumption || reflexivity).
  reflexivity.
Qed.

Lemma lazyName_app (name tail : string) :
  free "]"%char name = true -> free newline name = true ->
  Extract.markdownTail tail = true ->
  Extract.lazyName (name ++ tail) = Some name.
Proof.
  intros Hb Hn Ht. induction name as [|c name IH].
  - cbn [append]. destruct tail; cbn [Extract.lazyName]; now rewrite Ht.
  - unfold free in Hb, Hn. cbn [all_bytes] in Hb, Hn.
    apply andb_prop in Hb as [Hcb Hb]. apply andb_prop in Hn as [Hcn Hn].
    apply negb_true_iff in Hcb, Hcn.
    cbn [append Extract.lazyName].
    assert (Hmt : Extract.markdownTail (String c (name ++ tail)) = false).
    { unfold Extract.markdownTail. cbn [Extract.stripPrefix].
      rewrite Ascii.eqb_sym, Hcb. reflexivity. }
    rewrite Hmt, Hcn, IH by assumption. reflexivity.
Qed.

(** X21.  From the text of a report the extractor gets back the very name the
    report was built with, when that name holds no closing bracket and no
    newline and the user id is not negative. *)
Theorem extractUsername_reportText (w : World) (banUserStr : string) (msg : BotMessage) :
  free "]"%char banUserStr = true ->
  free newline banUserStr = true ->
  0 <= BotMessage_FromID msg ->
  extractUsername (reportText w banUserStr msg) = (banUserStr, None).
Proof.
  intros Hb Hn Hid. unfold extractUsername, reportText.
  cbn [append Extract.findMarkdown Ascii.eqb Bool.eqb].
  rewrite lazyName_app; try assumption; [reflexivity|].
  change (")**" ++ ?x) with (String ")"%char ("**" ++ x)).
  now apply markdownTail_link.
Qed.

Lemma extractUsername_reportText_witness :
  extractUsername
    (reportText (sampleWorld "bob" nobodyIsSuper nothingFails) "Bob B"
       {| BotMessage_Text := "buy cheap meds"; BotMessage_FromID := 7; BotMessage_ID := 100 |})
  = ("Bob B", None).
Proof.
  apply extractUsername_reportText; [reflexivity|reflexivity|cbn; lia].
Defined.

(** For a negative id, as channels have, the link does not match the
    pattern, which wants digits only. *)
Example extractUsername_reportText_negative_id :
  extractUsername
    (reportText (sampleWorld "bob" nobodyIsSuper nothingFails) "Bob B"
       {| BotMessage_Text := "buy cheap meds"; BotMessage_FromID := -1001234;
          BotMessage_ID := 100 |})
  = (EmptyString, Some (ErrNew "username not found")).
Proof. reflexivity. Qed.

Lemma append_assoc (s t u : string) : (s ++ t) ++ u = s ++ t ++ u.
Proof. induction s as [|c s IH]; cbn [append]; [reflexivity|now rewrite IH]. Qed.

Lemma newlinesToSpaces_free (s : string) : free newline (newlinesToSpaces s) = true.
Proof.
  unfold free. induction s as [|c s IH]; [reflexivity|].
  cbn [newlinesToSpaces all_bytes]. rewrite IH, andb_true_r.
  destruct (Ascii.eqb c newline) eqn:Hc; [reflexivity|now rewrite Hc].
Qed.

Lemma FormatInt_free_of_newline (n : Z) : free newline (FormatInt n) = true.
Proof.
  destruct (FormatInt_bytes n) as (_ & _ & _ & H). revert H.
  unfold free. generalize (FormatInt n). intros s.
  induction s as [|c s IH]; cbn [all_bytes]; [reflexivity|].
  intros H. apply andb_prop in H as [Hc Hs]. rewrite (IH Hs), andb_true_r.
  destruct (Ascii.eqb_spec c newline) as [->|]; [discriminate Hc|reflexivity].
Qed.

(** The header line of a report. *)
Definition reportHeader (banUserStr : string) (msg : BotMessage) : string :=
  "**permanently banned [" ++ banUserStr ++ "](tg://user?id="
    ++ FormatInt (BotMessage_FromID msg) ++ ")**".

Lemma reportText_lines (w : World) (banUserStr : string) (msg : BotMessage) :
  reportText w banUserStr msg
  = adminLines [ reportHeader banUserStr msg; EmptyString;
                 newlinesToSpaces (escapeMarkDownV1Text w (BotMessage_Text msg));
                 EmptyString; EmptyString ].
Proof.
  unfold reportText, reportHeader, adminLines, nl.
  cbn [Join]. rewrite !append_assoc. reflexivity.
Qed.

(** X22.  From the text of a report, whose message was put on one line by
    replacing its newlines, the clean body is that one line followed by the
    two newlines the report ends with; this needs a name without newline and
    a message line that does not start with the marker. *)
Theorem getCleanMessage_reportText (w : World) (banUserStr : string) (msg : BotMessage) :
  let line := newlinesToSpaces (escapeMarkDownV1Text w (BotMessage_Text msg)) in
  free newline banUserStr = true ->
  HasPrefix line spamMarker = false ->
  getCleanMessage (reportText w banUserStr msg) = Returned (line ++ nl ++ nl, None).
Proof.
  intros line Hn Hline. rewrite reportText_lines. fold line.
  rewrite getCleanMessage_without_marker; [reflexivity| |].
  - cbn [forallb]. unfold reportHeader.
    unfold free at 1. rewrite !all_bytes_app.
    fold (free newline banUserStr). fold (free newline (FormatInt (BotMessage_FromID msg))).
    rewrite Hn, FormatInt_free_of_newline.
    unfold line. rewrite newlinesToSpaces_free. reflexivity.
  - cbn [forallb]. unfold unmarked at 3. rewrite Hline. reflexivity.
Qed.

Lemma getCleanMessage_reportText_witness :
  getCleanMessage
    (reportText (sampleWorld "bob" nobodyIsSuper nothingFails) "Bob B"
       {| BotMessage_Text := "buy cheap meds"; BotMessage_FromID := 7; BotMessage_ID := 100 |})
  = Returned ("buy cheap meds" ++ nl ++ nl, None).
Proof.
  apply (@getCleanMessage_reportText (sampleWorld "bob" nobodyIsSuper nothingFails) "Bob B"
           {| BotMessage_Text := "buy cheap meds"; BotMessage_FromID := 7;
              BotMessage_ID := 100 |}); reflexivity.
Defined.

End ReadBack.

(** ** Whom and what the moderation calls name *)

(** X23.  Every ban handed to [banUserOrChannel] is permanent and for the primary
    chat, and every delete is for the primary chat.  From a forwarded report
    they name the correlated user and message, and the request carries the
    training flag of the admin.  From a button press they are made in
    training mode only, on a ConfirmBan press whose payload parsed, for the
    ids of the payload, with the training flag off. *)
Theorem moderation_targets (w : World) (a : admin) :
  (forall update,
      Forall (fun r => exists info,
                  Locator_Message w (MessageText update) = Some info
                  /\ r = banRequestOf w a (UserID info) (trainingMode a))
        (banCalls (snd (run (MsgHandler w a update))))
      /\ Forall (fun cm => exists info,
                     Locator_Message w (MessageText update) = Some info
                     /\ cm = (primChatID a, MsgID info))
           (deleteCalls (snd (run (MsgHandler w a update)))))
  /\ (forall query,
         Forall (fun r => exists uid mid,
                     parseCallbackData (Data query) = (uid, mid, None)
                     /\ dispatch (Data query) = ConfirmBan
                     /\ trainingMode a = true
                     /\ r = banRequestOf w a uid false)
           (banCalls (snd (run (InlineCallbackHandler w a query))))
         /\ Forall (fun cm => exists uid mid,
                        parseCallbackData (Data query) = (uid, mid, None)
                        /\ dispatch (Data query) = ConfirmBan
                        /\ trainingMode a = true
                        /\ cm = (primChatID a, mid))
              (deleteCalls (snd (run (InlineCallbackHandler w a query))))).
Proof.
  split.
  - intros update. unfold banRequestOf. unfold_handlers.
    repeat (break_match; simpl_run);
      cbn [banCalls deleteCalls flat_map fst app];
      (split; forall_singleton; eexists; split; reflexivity).
  - intros query. unfold banRequestOf, dispatch. unfold_handlers.
    repeat (break_match; simpl_run);
      cbn [banCalls deleteCalls flat_map fst app];
      (split; forall_singleton; do 2 eexists;
       (split; [reflexivity|]); (split; [reflexivity|]); split; reflexivity).
Qed.

(** ** The clean body holds no marker line *)

Section CleanBody.

Import GoStrings.
Local Open Scope list_scope.

Lemma Split_all_free (sep : ascii) (s : string) :
  forallb (free sep) (Split sep s) = true.
Proof.
  induction s as [|c s IH]; [reflexivity|].
  cbn [Split]. destruct (Ascii.eqb c sep) eqn:Hc.
  - cbn [forallb]. now rewrite IH.
  - pose proof (Split_nonempty sep s) as Hne.
    destruct (Split sep s) as [|h t]; [contradiction|].
    cbn [forallb] in *. apply andb_prop in IH as [Hh Ht].
    unfold free in *. cbn [all_bytes]. now rewrite Hc, Hh, Ht.
Qed.

Lemma forallb_firstn {A : Type} (p : A -> bool) (n : nat) (l : list A) :
  forallb p l = true -> forallb p (firstn n l) = true.
Proof.
  revert l. induction n as [|n IH]; intros [|x l]; cbn [firstn forallb]; try reflexivity.
  intros H. apply andb_prop in H as [Hx Hl]. now rewrite Hx, IH.
Qed.

Lemma forallb_skipn {A : Type} (p : A -> bool) (n : nat) (l : list A) :
  forallb p l = true -> forallb p (skipn n l) = true.
Proof.
  revert l. induction n as [|n IH]; intros [|x l]; cbn [skipn forallb]; try reflexivity.
  - tauto.
  - intros H. apply andb_prop in H as [_ Hl]. now apply IH.
Qed.

Lemma firstMarker_before (l : list string) (i0 i : Z) :
  firstMarker i0 l = Some i ->
  forallb unmarked (firstn (Z.to_nat (i - i0)) l) = true.
Proof.
  revert i0. induction l as [|x l IH]; intros i0 H; [discriminate|].
  cbn [firstMarker] in H. destruct (HasPrefix x spamMarker) eqn:Hx.
  - injection H as <-. now rewrite Z.sub_diag.
  - pose proof (firstMarker_bounds _ _ H) as Hb.
    replace (Z.to_nat (i - i0)) with (S (Z.to_nat (i - (i0 + 1)))) by lia.
    cbn [firstn forallb]. unfold unmarked at 1. rewrite Hx. cbn [negb andb].
    now apply IH.
Qed.

Lemma firstMarker_none_all (l : list string) (i0 : Z) :
  firstMarker i0 l = None -> forallb unmarked l = true.
Proof.
  revert i0. induction l as [|x l IH]; intros i0 H; [reflexivity|].
  cbn [firstMarker] in H. destruct (HasPrefix x spamMarker) eqn:Hx; [discriminate|].
  cbn [forallb]. unfold unmarked at 1. rewrite Hx. cbn [negb andb]. eapply IH; eassumption.
Qed.

Lemma firstn_firstn_le {A : Type} (p : A -> bool) (n m : nat) (l : list A) :
  (n <= m)%nat -> forallb p (firstn m l) = true -> forallb p (firstn n l) = true.
Proof.
  revert m l. induction n as [|n IH]; intros m l Hle H; [reflexivity|].
  destruct m as [|m]; [lia|]. destruct l as [|x l]; [reflexivity|].
  cbn [firstn forallb] in *. apply andb_prop in H as [Hx Hl].
  rewrite Hx. cbn [andb]. apply (IH m); [lia|assumption].
Qed.

(** X4.  No line of a body that [getCleanMessage] returns starts with the marker:
    the detection results never get into the text that is handed on as a
    sample. *)
Theorem getCleanMessage_body_unmarked (msg body : string) :
  getCleanMessage msg = Returned (body, None) ->
  forallb unmarked (Split newline body) = true.
Proof.
  unfold getCleanMessage.
  destruct (Z.of_nat (List.length (Split newline msg)) <? 2); [discriminate|].
  pose proof (Split_all_free newline msg) as Hfree.
  set (lines := Split newline msg) in *.
  assert (Hsub : forall hi,
             (forall i, firstMarker 0 lines = Some i -> hi = i - 1) ->
             forall sub, slice lines 2 hi = Returned sub ->
                         forallb unmarked sub = true /\ forallb (free newline) sub = true).
  { intros hi Hhi sub. unfold slice.
    destruct ((0 <=? 2) && (2 <=? hi) && (hi <=? Z.of_nat (List.length lines))) eqn:Hc;
      [|discriminate].
    apply andb_prop in Hc as [Hc Hle]. apply andb_prop in Hc as [_ Hge].
    apply Z.leb_le in Hle, Hge.
    intros [= <-]. split.
    - destruct (firstMarker 0 lines) as [i|] eqn:E.
      + specialize (Hhi i eq_refl). subst hi.
        pose proof (firstMarker_before _ _ E) as Hb. rewrite Z.sub_0_r in Hb.
        rewrite <- (firstn_skipn 2 (firstn (Z.to_nat i) lines)) in Hb.
        rewrite forallb_app in Hb. apply andb_prop in Hb as [_ Hb].
        rewrite skipn_firstn_comm in Hb.
        eapply firstn_firstn_le; [|exact Hb]. lia.
      + apply forallb_firstn. apply (@forallb_skipn _ unmarked 2%nat).
        eapply firstMarker_none_all; eassumption.
    - apply forallb_firstn. now apply (@forallb_skipn _ (free newline) 2%nat). }
  destruct (firstMarker 0 lines) as [i|] eqn:E.
  - destruct (slice lines 2 (i - 1)) as [sub|] eqn:Es; [|discriminate].
    intros [= <-].
    destruct (Hsub (i - 1) ltac:(now intros j [= <-]) sub Es) as [Hun Hfr].
    destruct sub as [|x sub]; [reflexivity|].
    rewrite Split_Join by (assumption || discriminate). exact Hun.
  - destruct (slice lines 2 (Z.of_nat (List.length lines))) as [sub|] eqn:Es; [|discriminate].
    intros [= <-].
    destruct (Hsub _ ltac:(discriminate) sub Es) as [Hun Hfr].
    destruct sub as [|x sub]; [reflexivity|].
    rewrite Split_Join by (assumption || discriminate). exact Hun.
Qed.

Lemma getCleanMessage_body_unmarked_witness :
  forallb unmarked (Split newline (adminLines ["Line 3"; "Line 4"])) = true.
Proof.
  apply (@getCleanMessage_body_unmarked
           (adminLines ["Line 1"; EmptyString; "Line 3"; "Line 4"; EmptyString;
                        "spam detection results"; "Line 6"])
           (adminLines ["Line 3"; "Line 4"])).
  reflexivity.
Defined.

End CleanBody.

(** ** Changes of the approved list *)

(** The users added to and removed from the approved list in a log. *)
Definition approvedAdds (l : Log) : list (Z * string) :=
  flat_map (fun entry => match fst entry with
                         | Bot_AddApprovedUser id name => [(id, name)]
                         | _ => []
                         end) l.

Definition approvedRemovals (l : Log) : list Z :=
  flat_map (fun entry => match fst entry with
                         | Bot_RemoveApprovedUser id => [id]
                         | _ => []
                         end) l.

(** X24.  A user is added to the approved list only on an Unban press whose
    payload parsed, under the id of the payload and the name extracted from
    the admin message (the empty name when there is none); a press never
    removes a user.  A forwarded report removes the correlated user only,
    and never adds one. *)
Theorem approved_list_changes (w : World) (a : admin) :
  (forall query,
      Forall (fun added => dispatch (Data query) = Unban
                           /\ (exists mid,
                                  parseCallbackData (Data query) = (fst added, mid, None))
                           /\ snd added = fst (extractUsername (Message_Text query)))
        (approvedAdds (snd (run (InlineCallbackHandler w a query))))
      /\ approvedRemovals (snd (run (InlineCallbackHandler w a query))) = [])
  /\ (forall update,
         approvedAdds (snd (run (MsgHandler w a update))) = []
         /\ Forall (fun id => exists info,
                        Locator_Message w (MessageText update) = Some info
                        /\ id = UserID info)
              (approvedRemovals (snd (run (MsgHandler w a update))))).
Proof.
  split.
  - intros query. unfold dispatch. unfold_handlers.
    repeat (break_match; simpl_run);
      cbn [approvedAdds approvedRemovals flat_map fst app];
      (split; [|reflexivity]); forall_singleton; cbn [fst snd];
      try match goal with
          | H : extractUsername _ = (_, Some _) |- _ =>
              apply extractUsername_error_name in H; subst
          end;
      (split; [reflexivity|]); (split; [eexists; reflexivity|reflexivity]).
  - intros update. unfold_handlers.
    repeat (break_match; simpl_run);
      cbn [approvedAdds approvedRemovals flat_map fst app];
      (split; [reflexivity|]); forall_singleton; eexists; (split; reflexivity).
Qed.
